(** * FitAI: biometric classification, exercise recommendation and the
    categorical prediction pipeline of [app.py]

    The development embeds the decision logic of [app.py] and proves the
    properties stated about it.

    Modelling choices, following the Python source:
    - a Python [float] is an IEEE-754 binary64 number: the kernel's primitive
      [float], whose operations are specified by [FloatAxioms];
    - a Python [int] is a [Z];
    - a Python exception is a constructor of [exn], and code that can raise
      lives in the error monad [result];
    - module-level globals ([df_mega], [label_encoders], the three models) are
      passed explicitly to the functions that read them;
    - the pandas sort, the classifiers' [predict] and the builtin [round] are
      library code: they enter as an interface with its documented contract;
      one instance of the sort follows the routine pandas and numpy run for
      the default sort kind;
    - the dataset load can stop half way: [load_block] gives the three
      states it leaves [df_mega] in, [load_dataset] the two of a file that
      has the [Rating] column. *)

From Stdlib Require Import ZArith List String Ascii Bool Lia.
From Stdlib Require Import Permutation Sorted.
From Stdlib Require Import Floats.
Import ListNotations.

#[local] Set Warnings "-inexact-float".
#[local] Open Scope string_scope.

(* ================================================================= *)
(** ** Python exceptions and the error monad *)

Inductive exn : Type :=
| ZeroDivisionError
| OverflowError
| KeyError (key : string)
| ValueError (msg : string)
| TypeError
| AttributeError.

Inductive result (A : Type) : Type :=
| Ok (a : A)
| Raise (e : exn).

Arguments Ok {A} a.
Arguments Raise {A} e.

Definition bind {A B : Type} (m : result A) (k : A -> result B) : result B :=
  match m with
  | Ok a => k a
  | Raise e => Raise e
  end.

Declare Scope py_scope.
Delimit Scope py_scope with py.
Notation "x <- m ;; k" := (bind m (fun x => k))
  (at level 61, m at next level, right associativity) : py_scope.
Notation "' pat <- m ;; k" := (bind m (fun x => match x with pat => k end))
  (at level 61, pat pattern, m at next level, right associativity) : py_scope.
#[local] Open Scope py_scope.

(* ================================================================= *)
(** ** Python numbers *)

Module PyFloat.

#[local] Open Scope float_scope.

(** [int -> float], as Python does when an [int] meets a [float] in an
    arithmetic operation: round to nearest, ties to even. An [int] that rounds
    beyond the largest double raises [OverflowError]; the first such magnitude
    is [2^1024 - 2^970]. *)
Definition of_Z (z : Z) : float :=
  SF2Prim (binary_normalize prec emax z 0%Z false).

Definition int_bound : Z := (2 ^ 1024 - 2 ^ 970)%Z.

Definition of_int (z : Z) : result float :=
  if (Z.abs z <? int_bound)%Z then Ok (of_Z z) else Raise OverflowError.

(** [a / b] on floats: Python raises on a zero divisor (of either sign). *)
Definition truediv (a b : float) : result float :=
  if b =? 0 then Raise ZeroDivisionError else Ok (a / b).

(** [max(a, b)] of the builtin: the first argument is kept unless the second
    is strictly greater (so a [nan] second argument is dropped). *)
Definition max (a b : float) : float :=
  if a <? b then b else a.

End PyFloat.

(* ================================================================= *)
(** ** Dictionaries in insertion order *)

Definition dict (V : Type) : Type := list (string * V).

Fixpoint dict_find {V : Type} (d : dict V) (k : string) : option V :=
  match d with
  | [] => None
  | (k', v) :: rest => if k' =? k then Some v else dict_find rest k
  end.

(** [d[k]]: a missing key raises [KeyError]. *)
Definition dict_get {V : Type} (d : dict V) (k : string) : result V :=
  match dict_find d k with
  | Some v => Ok v
  | None => Raise (KeyError k)
  end.

(** [x in xs] / [Series.isin(xs)] on text labels and on ints. *)
Definition isin (x : string) (xs : list string) : bool :=
  existsb (String.eqb x) xs.

Definition int_in (x : Z) (xs : list Z) : bool :=
  existsb (Z.eqb x) xs.

(* ================================================================= *)
(** ** The exercise catalog ([df_mega]) *)

(** One row of the dataset, with the columns the program reads. *)
Record ExerciseRecord : Type := {
  Title : string;
  Type_ : string;
  BodyPart : string;
  Equipment : string;
  Level : string;
  Rating : float
}.

Definition DataFrame : Type := list ExerciseRecord.

(** [s.replace("_", " ")] *)
Fixpoint replace_underscore (s : string) : string :=
  match s with
  | EmptyString => EmptyString
  | String c rest =>
      String (if Ascii.eqb c "_"%char then " "%char else c) (replace_underscore rest)
  end.

Definition clean_row (r : ExerciseRecord) : ExerciseRecord :=
  {| Title := replace_underscore (Title r);
     Type_ := replace_underscore (Type_ r);
     BodyPart := replace_underscore (BodyPart r);
     Equipment := replace_underscore (Equipment r);
     Level := replace_underscore (Level r);
     Rating := Rating r |}.

(** The load block at the top of the module, on a dataset file that has the
    [Rating] column, as the shipped file has: [csv] is what [pd.read_csv]
    delivered, [None] when it raised (then [df_mega] stays [None]). Rows
    without a rating are dropped ([dropna(subset=["Rating"])]: a missing
    rating is a [nan]), then underscores are replaced in the text columns.
    With the column present no step after [read_csv] raises, so these are the
    only two outcomes. A file without the column makes [dropna] raise after
    [df_mega] has been assigned: that outcome is in [load_block] below. *)
Definition load_dataset (csv : option DataFrame) : option DataFrame :=
  match csv with
  | None => None
  | Some rows =>
      Some (map clean_row (filter (fun r => negb (is_nan (Rating r))) rows))
  end.

(** A row of a dataset file that has the text columns and no [Rating]
    column. *)
Module RawRow.
Record t : Type := {
  Title : string;
  Type_ : string;
  BodyPart : string;
  Equipment : string;
  Level : string
}.
End RawRow.

(** What [pd.read_csv] delivers when it returns: a frame with the [Rating]
    column or a frame without it. *)
Inductive CsvFrame : Type :=
  | WithRating (rows : DataFrame)
  | WithoutRating (rows : list RawRow.t).

(** The states in which the load block leaves the global [df_mega]:
    - [CatalogNone]: [read_csv] raised, the initial [None] stays;
    - [CatalogLoaded df]: every step ran, [df] is the cleaned frame;
    - [CatalogRaw rows]: [df_mega] was assigned by [read_csv], then [dropna]
      raised [KeyError] for the missing column; the handler prints the error
      and the frame stays bound as it was read, without [Rating] and with its
      underscores. *)
Inductive Catalog : Type :=
  | CatalogNone
  | CatalogLoaded (df : DataFrame)
  | CatalogRaw (rows : list RawRow.t).

(** The whole load block, lines 17 to 31: [csv] is [None] when [read_csv]
    raised. *)
Definition load_block (csv : option CsvFrame) : Catalog :=
  match csv with
  | None => CatalogNone
  | Some (WithRating rows) =>
      CatalogLoaded
        (map clean_row (filter (fun r => negb (is_nan (Rating r))) rows))
  | Some (WithoutRating rows) => CatalogRaw rows
  end.

(** Descending order on ratings as [sort_values("Rating", ascending=False)]
    arranges rows: missing ratings last, the others from high to low. *)
Definition rating_desc_b (a b : ExerciseRecord) : bool :=
  is_nan (Rating b) || (negb (is_nan (Rating a)) && (Rating b <=? Rating a)%float).

Definition rating_desc (a b : ExerciseRecord) : Prop :=
  rating_desc_b a b = true.

(** pandas' [DataFrame.sort_values("Rating", ascending=False)] with the
    default [kind="quicksort"]: the rows come back rearranged in descending
    order of rating. pandas documents nothing more for this kind; in
    particular the order of rows with equal ratings is not part of the
    contract. *)
Class SortValues : Type := {
  sort_values_desc : DataFrame -> DataFrame;
  sort_values_perm : forall f, Permutation (sort_values_desc f) f;
  sort_values_sorted : forall f, StronglySorted rating_desc (sort_values_desc f)
}.

(* ================================================================= *)
(** ** The sort behind [sort_values] *)

(** [sort_values] with one sort key and the default [kind="quicksort"] ends
    in [ndarray.argsort(kind="quicksort")], which for a [float64] column is
    numpy's indirect introsort ([aquicksort] in [npysort/quicksort.cpp]).
    pandas and numpy are libraries the program imports; the definitions of
    this part follow the scalar routine of numpy, the one that runs where no
    vectorised kernel is dispatched for the CPU. *)
Module Numpy.

#[local] Open Scope Z_scope.

(** The comparison of the sort on doubles: a [nan] is larger than every
    number. *)
Definition less (a b : float) : bool :=
  (a <? b)%float || (is_nan b && negb (is_nan a)).

(** Partitions of at most this many elements beyond the first are left to
    insertion sort. *)
Definition SMALL_QUICKSORT : Z := 16.

Section Aquicksort.

(** The values, which stay in place; the routine rearranges [tosort], an
    array of positions of [v], and addresses it with pointers, here offsets
    into the array. *)
Variable v : list float.

Definition get (tosort : list nat) (p : Z) : nat := nth (Z.to_nat p) tosort O.

Definition put (tosort : list nat) (p : Z) (x : nat) : list nat :=
  (firstn (Z.to_nat p) tosort ++ x :: skipn (S (Z.to_nat p)) tosort)%list.

(** [INTP_SWAP]: exchanges the cells [p] and [q] point to. *)
Definition swap (tosort : list nat) (p q : Z) : list nat :=
  put (put tosort p (get tosort q)) q (get tosort p).

(** [v[*p]] *)
Definition key (tosort : list nat) (p : Z) : float :=
  nth (get tosort p) v 0%float.

(** [do { ++pi; } while (less(v[*pi], vp));] The scan stops inside the
    array, whose length bounds its steps. *)
Fixpoint advance (fuel : nat) (tosort : list nat) (vp : float) (pi : Z) : Z :=
  match fuel with
  | O => pi + 1
  | S fuel' =>
      if less (key tosort (pi + 1)) vp
      then advance fuel' tosort vp (pi + 1)
      else pi + 1
  end.

(** [do { --pj; } while (less(vp, v[*pj]));] *)
Fixpoint retreat (fuel : nat) (tosort : list nat) (vp : float) (pj : Z) : Z :=
  match fuel with
  | O => pj - 1
  | S fuel' =>
      if less vp (key tosort (pj - 1))
      then retreat fuel' tosort vp (pj - 1)
      else pj - 1
  end.

(** The partition loop: both scans, then a swap unless the pointers have
    met. Returns the array and the final [pi]. *)
Fixpoint partition (fuel : nat) (tosort : list nat) (vp : float) (pi pj : Z)
  : list nat * Z :=
  match fuel with
  | O => (tosort, pi)
  | S fuel' =>
      let pi' := advance (List.length v) tosort vp pi in
      let pj' := retreat (List.length v) tosort vp pj in
      if pj' <=? pi' then (tosort, pi')
      else partition fuel' (swap tosort pi' pj') vp pi' pj'
  end.

(** [while (pj > pl && less(vp, v[*pk])) { *pj-- = *pk--; }] with
    [pk = pj - 1] throughout. *)
Fixpoint shift (fuel : nat) (tosort : list nat) (pl : Z) (vp : float) (pj : Z)
  : list nat * Z :=
  match fuel with
  | O => (tosort, pj)
  | S fuel' =>
      if (pl <? pj) && less vp (key tosort (pj - 1))
      then shift fuel' (put tosort pj (get tosort (pj - 1))) pl vp (pj - 1)
      else (tosort, pj)
  end.

(** One round of the insertion sort: the element at [pi] is moved down to
    its place. *)
Definition insert_at (pl : Z) (tosort : list nat) (pi : Z) : list nat :=
  let vi := get tosort pi in
  let vp := nth vi v 0%float in
  let '(tosort', pj) := shift (List.length v) tosort pl vp pi in
  put tosort' pj vi.

Definition range (lo hi : Z) : list Z :=
  map (fun k => lo + Z.of_nat k) (seq 0 (Z.to_nat (hi - lo + 1))).

(** [for (pi = pl + 1; pi <= pr; ++pi) ...] *)
Definition insertion (tosort : list nat) (pl pr : Z) : list nat :=
  fold_left (insert_at pl) (range (pl + 1) pr) tosort.

(** The three conditional swaps that put the median of the first, middle
    and last element in the middle. *)
Definition median3 (tosort : list nat) (pl pm pr : Z) : list nat :=
  let t1 :=
    if less (key tosort pm) (key tosort pl) then swap tosort pm pl else tosort in
  let t2 := if less (key t1 pr) (key t1 pm) then swap t1 pr pm else t1 in
  if less (key t2 pm) (key t2 pl) then swap t2 pm pl else t2.

(** The stack of partitions still to sort, each with its depth budget. *)
Definition stack : Type := list (Z * Z * Z).

(** [while ((pr - pl) > SMALL_QUICKSORT) { ... }]: partition, push the
    larger part, go on with the smaller. *)
Fixpoint split_loop (fuel : nat) (tosort : list nat) (pl pr : Z) (st : stack)
  (cdepth : Z) : list nat * Z * Z * stack :=
  match fuel with
  | O => (tosort, pl, pr, st)
  | S fuel' =>
      if SMALL_QUICKSORT <? pr - pl then
        let pm := pl + Z.shiftr (pr - pl) 1 in
        let t := median3 tosort pl pm pr in
        let vp := key t pm in
        let t := swap t pm (pr - 1) in
        let '(t, pi) := partition (List.length v) t vp pl (pr - 1) in
        let t := swap t pi (pr - 1) in
        if pi - pl <? pr - pi
        then split_loop fuel' t pl (pi - 1)
               ((pi + 1, pr, cdepth - 1) :: st) (cdepth - 1)
        else split_loop fuel' t (pi + 1) pr
               ((pl, pi - 1, cdepth - 1) :: st) (cdepth - 1)
      else (tosort, pl, pr, st)
  end.

(** The outer loop. When the depth budget of a partition is used up numpy
    switches to heapsort for it; that branch is left out and answers
    [None], as does running out of fuel. *)
Fixpoint sort_loop (fuel : nat) (tosort : list nat) (pl pr : Z) (st : stack)
  (cdepth : Z) : option (list nat) :=
  match fuel with
  | O => None
  | S fuel' =>
      if cdepth <? 0 then None
      else
        let '(t, pl', pr', st') :=
          split_loop (List.length v) tosort pl pr st cdepth in
        let t := insertion t pl' pr' in
        match st' with
        | [] => Some t
        | (pl'', pr'', cdepth') :: rest =>
            sort_loop fuel' t pl'' pr'' rest cdepth'
        end
  end.

(** [argsort(kind="quicksort")]: the positions of [v] in ascending order of
    value; the depth budget is twice the position of the highest set bit of
    the length. *)
Definition aquicksort : option (list nat) :=
  let num := List.length v in
  sort_loop (S num) (seq 0 num) 0 (Z.of_nat num - 1) []
    (2 * Z.log2 (Z.of_nat num)).

End Aquicksort.

End Numpy.

(** pandas' [nargsort(items, kind="quicksort", ascending=False,
    na_position="last")], which [sort_values] calls for a single sort key:
    the values that are not [nan] are reversed, sorted ascending by numpy
    and the result reversed again; the positions of the [nan] follow. *)
Definition nargsort (items : list float) : option (list nat) :=
  let idx := seq 0 (List.length items) in
  let mask := fun i => is_nan (nth i items 0%float) in
  let non_nan_idx := rev (filter (fun i => negb (mask i)) idx) in
  let nan_idx := filter mask idx in
  let non_nans := map (fun i => nth i items 0%float) non_nan_idx in
  match Numpy.aquicksort non_nans with
  | Some order =>
      Some (rev (map (fun p => nth p non_nan_idx O) order) ++ nan_idx)%list
  | None => None
  end.

(** [DataFrame.take(indexer)] *)
Definition take (df : DataFrame) (indexer : list nat) : DataFrame :=
  flat_map (fun i => match nth_error df i with Some r => [r] | None => [] end)
    indexer.

(* ================================================================= *)
(** ** Fitness plan functions *)

(** The bounds are Python ints; an int is compared with a float by value,
    so each bound stands here as the double of the same value. *)
Definition BFP_STANDARDS_MALE : dict (float * float) :=
  [ ("Essential", (2, 5)); ("Athletes", (6, 13)); ("Fitness", (14, 17));
    ("Acceptable", (18, 24)); ("Obese", (25, 100)) ]%float.

Definition BFP_STANDARDS_FEMALE : dict (float * float) :=
  [ ("Essential", (10, 13)); ("Athletes", (14, 20)); ("Fitness", (21, 24));
    ("Acceptable", (25, 31)); ("Obese", (32, 100)) ]%float.

(** The [if]/[elif] chain of [calculate_bmi_case]. *)
Definition bmi_case_of (bmi : float) : string :=
  if (bmi <? 16)%float then "sever thinness"
  else if (bmi <? 17)%float then "moderate thinness"
  else if (bmi <? 18.5)%float then "mild thinness"
  else if (bmi <? 25)%float then "normal"
  else if (bmi <? 30)%float then "over weight"
  else if (bmi <? 35)%float then "obese"
  else "severe obese".

Definition calculate_bmi_case (weight height : float) : result (float * string) :=
  bmi <- PyFloat.truediv weight (height * height)%float ;;
  Ok (bmi, bmi_case_of bmi).

(** The linear expression inside [max(0, ...)], evaluated left to right. *)
Definition bfp_linear (bmi : float) (g : Z) (age : Z) : result float :=
  a <- PyFloat.of_int age ;;
  gf <- PyFloat.of_int g ;;
  Ok (1.20 * bmi + 0.23 * a - 10.8 * gf - 5.4)%float.

Definition estimate_bfp (bmi : float) (gender : string) (age : Z) : result float :=
  let g := if gender =? "male" then 1%Z else 0%Z in
  x <- bfp_linear bmi g age ;;
  Ok (PyFloat.max 0 x).

Definition in_range (bfp : float) (band : float * float) : bool :=
  let '(lo, hi) := band in (lo <=? bfp)%float && (bfp <=? hi)%float.

(** The [for] loop of [bfp_case] over [table.items()], with the [return]
    after the loop. *)
Fixpoint bfp_scan (items : dict (float * float)) (bfp : float) : string :=
  match items with
  | [] => "Obese"
  | (c, band) :: rest => if in_range bfp band then c else bfp_scan rest bfp
  end.

Definition bfp_table (gender : string) : dict (float * float) :=
  if gender =? "male" then BFP_STANDARDS_MALE else BFP_STANDARDS_FEMALE.

Definition bfp_case (bfp : float) (gender : string) : string :=
  bfp_scan (bfp_table gender) bfp.

(** The dictionary [mapping] of [get_plan]. *)
Definition mapping : dict Z :=
  [ ("sever thinness", 1); ("moderate thinness", 2); ("mild thinness", 3);
    ("normal", 4); ("over weight", 5); ("obese", 6); ("severe obese", 7) ]%Z.

Definition get_plan (bmi_case : string) : result Z :=
  dict_get mapping bmi_case.

(** The row predicate [recommend_exercises] selects for a plan. *)
Definition plan_filter (plan : Z) (r : ExerciseRecord) : bool :=
  if int_in plan [1; 2; 3]%Z then
    isin (Type_ r) ["Strength"; "Olympic Weightlifting"]
    && isin (Level r) ["Beginner"; "Intermediate"]
    && isin (BodyPart r) ["Chest"; "Back"; "Legs"; "Shoulders"]
  else if (plan =? 4)%Z then
    Level r =? "Intermediate"
  else if int_in plan [5; 6]%Z then
    isin (Type_ r) ["Cardio"; "Strength"]
    && isin (BodyPart r) ["Legs"; "Glutes"; "Full Body"; "Abdominals"]
  else
    Level r =? "Beginner".

Definition recommend_exercises `{SortValues}
  (df_mega : option DataFrame) (plan : Z) : list ExerciseRecord :=
  match df_mega with
  | None => []
  | Some df => firstn 10 (sort_values_desc (filter (plan_filter plan) df))
  end.

(** [recommend_exercises] in each state of [df_mega]. On the raw frame the
    guard [df_mega is None] does not fire, the filter of the plan runs (the
    text columns are there) and [sort_values("Rating", ...)] raises
    [KeyError] for the missing column. *)
Definition recommend_exercises_on `{SortValues}
  (df_mega : Catalog) (plan : Z) : result (list ExerciseRecord) :=
  match df_mega with
  | CatalogNone => Ok []
  | CatalogLoaded df =>
      Ok (firstn 10 (sort_values_desc (filter (plan_filter plan) df)))
  | CatalogRaw _ => Raise (KeyError "Rating")
  end.

(* ================================================================= *)
(** ** The /fitness route *)

(** The dictionary stored in [last_fitness] and handed to the template. *)
Module Fitness.
Record t : Type := {
  bmi : float;
  bmi_case : string;
  bfp : float;
  bfp_case : string;
  plan : Z;
  exercises : list ExerciseRecord
}.
End Fitness.

Section Routes.

Context `{SortValues}.

(** The builtin [round(x, ndigits)] on floats. *)
Variable round : float -> Z -> float.

(** [fitness_route] after the form fields have been parsed ([float(...)],
    [int(...)]): the value it assigns to [last_fitness] and renders. *)
Definition fitness_route (df_mega : option DataFrame)
  (weight height : float) (age : Z) (gender : string) : result Fitness.t :=
  '(bmi, bmi_case) <- calculate_bmi_case weight height ;;
  bfp <- estimate_bfp bmi gender age ;;
  let bfp_c := bfp_case bfp gender in
  plan <- get_plan bmi_case ;;
  Ok {| Fitness.bmi := round bmi 2;
        Fitness.bmi_case := bmi_case;
        Fitness.bfp := round bfp 2;
        Fitness.bfp_case := bfp_c;
        Fitness.plan := plan;
        Fitness.exercises := recommend_exercises df_mega plan |}.

(** [fitness_route] in each state of [df_mega]: the call of
    [recommend_exercises] is the last entry of the dictionary literal, so
    it runs, and can raise, after the other values have been computed. *)
Definition fitness_route_on (df_mega : Catalog)
  (weight height : float) (age : Z) (gender : string) : result Fitness.t :=
  '(bmi, bmi_case) <- calculate_bmi_case weight height ;;
  bfp <- estimate_bfp bmi gender age ;;
  let bfp_c := bfp_case bfp gender in
  plan <- get_plan bmi_case ;;
  exercises <- recommend_exercises_on df_mega plan ;;
  Ok {| Fitness.bmi := round bmi 2;
        Fitness.bmi_case := bmi_case;
        Fitness.bfp := round bfp 2;
        Fitness.bfp_case := bfp_c;
        Fitness.plan := plan;
        Fitness.exercises := exercises |}.

End Routes.

(* ================================================================= *)
(** ** The /ml_predict route *)

(** Modelled from the spec: the label encoders are unpickled objects whose
    class is not defined in [app.py]. An encoder is a bijection between the
    labels of its vocabulary and integer codes; only a label that was present
    when the encoder was built can be encoded. The vocabulary is the
    attribute [classes_] the program reads, and the code of a label is its
    position there, as in scikit-learn's [LabelEncoder], whose interface
    ([classes_], [transform], [inverse_transform]) the program uses. *)
Record LabelEncoder : Type := { classes_ : list string }.

Fixpoint index_of (y : string) (classes : list string) : option nat :=
  match classes with
  | [] => None
  | c :: rest =>
      if c =? y then Some O
      else match index_of y rest with
           | Some i => Some (S i)
           | None => None
           end
  end.

Definition unseen_labels : exn :=
  ValueError "y contains previously unseen labels".

(** Modelled from the spec: [le.transform([y])[0]]; encoding an unseen
    label is an error, not a fallback. *)
Definition transform (le : LabelEncoder) (y : string) : result Z :=
  match index_of y (classes_ le) with
  | Some i => Ok (Z.of_nat i)
  | None => Raise unseen_labels
  end.

(** Modelled from the spec: [le.inverse_transform([code])[0]]; a code that
    stands for no label of the vocabulary, that is one outside
    [0 .. len(classes_)-1], is an error. *)
Definition inverse_transform (le : LabelEncoder) (code : Z) : result string :=
  if ((0 <=? code) && (code <? Z.of_nat (List.length (classes_ le))))%Z then
    match nth_error (classes_ le) (Z.to_nat code) with
    | Some label => Ok label
    | None => Raise unseen_labels
    end
  else Raise unseen_labels.

(** A pickled classifier, an opaque capability from one encoded feature to
    one code: [model.predict([[code]])[0]]. *)
Record Classifier : Type := { predict : Z -> Z }.

(** The globals filled by the model-loading block; each stays [None] when
    its [pickle.load] (or an earlier one) raised. *)
Record MLModels : Type := {
  label_encoders : option (dict LabelEncoder);
  title_model : option Classifier;
  equipment_model : option Classifier;
  level_model : option Classifier
}.

(** [g[k]] on a global that may be [None]. *)
Definition subscript {V : Type} (g : option (dict V)) (k : string) : result V :=
  match g with
  | None => Raise TypeError
  | Some d => dict_get d k
  end.

(** [m.predict(...)] on a global that may be [None]. *)
Definition call_predict (m : option Classifier) (code : Z) : result Z :=
  match m with
  | None => Raise AttributeError
  | Some c => Ok (predict c code)
  end.

(** The dictionary [ml_data]. *)
Record MlData : Type := {
  title : string;
  equipment : string;
  level : string
}.

Definition ml_predict_route (M : MLModels) (bodypart : string) : result MlData :=
  enc <- subscript (label_encoders M) "BodyPart" ;;
  encoded <- transform enc bodypart ;;
  title_code <- call_predict (title_model M) encoded ;;
  equipment_code <- call_predict (equipment_model M) encoded ;;
  level_code <- call_predict (level_model M) encoded ;;
  title_enc <- subscript (label_encoders M) "Title" ;;
  title_label <- inverse_transform title_enc title_code ;;
  equipment_enc <- subscript (label_encoders M) "Equipment" ;;
  equipment_label <- inverse_transform equipment_enc equipment_code ;;
  level_enc <- subscript (label_encoders M) "Level" ;;
  level_label <- inverse_transform level_enc level_code ;;
  Ok {| title := title_label; equipment := equipment_label; level := level_label |}.


(* ================================================================= *)
(** * Vocabulary of the properties *)

(** The labels of [calculate_bmi_case], in the order of its branches. *)
Definition bmi_cases : list string :=
  [ "sever thinness"; "moderate thinness"; "mild thinness"; "normal";
    "over weight"; "obese"; "severe obese" ].

(** A table entry whose range does not contain [bfp]. *)
Definition outside (bfp : float) (entry : string * (float * float)) : Prop :=
  in_range bfp (snd entry) = false.

(** Every row carries a rating. *)
Definition rated (df : DataFrame) : Prop :=
  Forall (fun r => is_nan (Rating r) = false) df.

(** Ratings never increase from a position to a later one. *)
Definition descending (out : list ExerciseRecord) : Prop :=
  forall i j a b, (i < j)%nat ->
    nth_error out i = Some a -> nth_error out j = Some b ->
    (Rating b <=? Rating a)%float = true.


(** Insertion sort of rows, by a test that says when the row being
    inserted goes in front of a row already placed. *)
Fixpoint insert_row (before : ExerciseRecord -> ExerciseRecord -> bool)
  (x : ExerciseRecord) (rows : DataFrame) : DataFrame :=
  match rows with
  | [] => [x]
  | y :: rest =>
      if before x y then x :: rows else y :: insert_row before x rest
  end.

Definition insertion_sort (before : ExerciseRecord -> ExerciseRecord -> bool)
  (rows : DataFrame) : DataFrame :=
  fold_right (insert_row before) [] rows.

(** A sort that keeps rows of equal rating in their input order. *)
Definition stable_before (x y : ExerciseRecord) : bool := rating_desc_b x y.

(** [indexer] lists each position below [n] once. *)
Definition is_indexer (n : nat) (indexer : list nat) : bool :=
  (List.length indexer =? n)%nat
  && forallb (fun i => existsb (Nat.eqb i) indexer) (seq 0 n).

(** Each row is in descending order with every later row. *)
Fixpoint sorted_b (rows : DataFrame) : bool :=
  match rows with
  | [] => true
  | x :: rest => forallb (rating_desc_b x) rest && sorted_b rest
  end.

(** [sort_values("Rating", ascending=False)] as pandas and numpy compute
    it: the rows taken at the indexer of [nargsort]. The two checks stand in
    for a correctness proof of the introsort: with them the result is a
    sorted rearrangement by construction. Where they fail, or where the
    numpy routine is left out (its heapsort branch), the rows are sorted by
    insertion, which keeps rows of equal rating in the order of the frame. *)
Definition pandas_sort_values (df : DataFrame) : DataFrame :=
  match nargsort (map Rating df) with
  | Some indexer =>
      if is_indexer (List.length df) indexer && sorted_b (take df indexer)
      then take df indexer
      else insertion_sort stable_before df
  | None => insertion_sort stable_before df
  end.

(** [code] is a position of the vocabulary of [enc]. *)
Definition in_vocabulary (enc : LabelEncoder) (code : Z) : Prop :=
  (0 <= code < Z.of_nat (List.length (classes_ enc)))%Z.

(** [code] is a position of the vocabulary of [enc] and [label] stands
    there. *)
Definition decodes (enc : LabelEncoder) (code : Z) (label : string) : Prop :=
  in_vocabulary enc code /\
  nth_error (classes_ enc) (Z.to_nat code) = Some label.

(** Encoders and models all loaded. *)
Record loaded (M : MLModels) (body_enc title_enc equipment_enc level_enc : LabelEncoder)
  (tm em lm : Classifier) : Prop := {
  loaded_encoders :
    exists encoders,
      label_encoders M = Some encoders /\
      dict_find encoders "BodyPart" = Some body_enc /\
      dict_find encoders "Title" = Some title_enc /\
      dict_find encoders "Equipment" = Some equipment_enc /\
      dict_find encoders "Level" = Some level_enc;
  loaded_title : title_model M = Some tm;
  loaded_equipment : equipment_model M = Some em;
  loaded_level : level_model M = Some lm
}.

(** Sample data for the concrete runs. *)
Definition bench_press : ExerciseRecord :=
  {| Title := "Bench Press"; Type_ := "Strength"; BodyPart := "Chest";
     Equipment := "Barbell"; Level := "Intermediate"; Rating := 9 |}.

Definition deadlift : ExerciseRecord :=
  {| Title := "Deadlift"; Type_ := "Strength"; BodyPart := "Back";
     Equipment := "Barbell"; Level := "Intermediate"; Rating := 9 |}.

(** A catalog of twenty Intermediate rows, [Exercise 00] to [Exercise 19],
    rated 9 and 8 in turn. *)
Definition two_digits (k : nat) : string :=
  String (ascii_of_nat (48 + k / 10))
    (String (ascii_of_nat (48 + k mod 10)) EmptyString).

Definition tied_row (k : nat) : ExerciseRecord :=
  {| Title := "Exercise " ++ two_digits k; Type_ := "Strength";
     BodyPart := "Chest"; Equipment := "Barbell"; Level := "Intermediate";
     Rating := if Nat.even k then 9 else 8 |}.

Definition tied_catalog : DataFrame := map tied_row (seq 0 20).

Definition jumping_jacks : ExerciseRecord :=
  {| Title := "Jumping Jacks"; Type_ := "Cardio"; BodyPart := "Full Body";
     Equipment := "Body Only"; Level := "Beginner"; Rating := 9.5 |}.

Definition demo_encoders : dict LabelEncoder :=
  [ ("BodyPart", {| classes_ := ["Back"; "Chest"; "Legs"] |});
    ("Title", {| classes_ := ["Bench Press"; "Deadlift"; "Squat"] |});
    ("Equipment", {| classes_ := ["Barbell"; "Body Only"] |});
    ("Level", {| classes_ := ["Beginner"; "Intermediate"] |}) ].

Definition demo_models : MLModels :=
  {| label_encoders := Some demo_encoders;
     title_model := Some {| predict := fun code => code |};
     equipment_model := Some {| predict := fun _ => 0%Z |};
     level_model := Some {| predict := fun _ => 1%Z |} |}.

(* ================================================================= *)
(** * Properties *)

(** ** Order facts on binary64 comparisons

    [ltb] and [leb] are specified through [SFcompare] on the decoded
    sign/mantissa/exponent form; the facts are proved there by cases and
    carried over with [ltb_spec] and [leb_spec]. *)

Module FloatOrder.

#[local] Open Scope float_scope.

Ltac cmp_cases :=
  repeat match goal with
  | |- context [Z.compare ?a ?b] => destruct (Z.compare_spec a b); subst
  | H : context [Z.compare ?a ?b] |- _ => destruct (Z.compare_spec a b); subst
  | |- context [Pos.compare ?a ?b] => destruct (Pos.compare_spec a b); subst
  | H : context [Pos.compare ?a ?b] |- _ => destruct (Pos.compare_spec a b); subst
  end.

Ltac sf_cases :=
  unfold SFleb, SFltb, SFeqb, SFcompare;
  repeat match goal with
  | x : spec_float |- _ => destruct x as [[]|[]| |[] ? ?]
  end;
  simpl; try congruence;
  change (Pos.compare_cont Eq) with Pos.compare;
  cmp_cases; simpl; try congruence; try lia.

Lemma SFleb_trans (a b c : spec_float) :
  SFleb a b = true -> SFleb b c = true -> SFleb a c = true.
Proof. sf_cases. Qed.

Lemma SFltb_leb (a b : spec_float) : SFltb a b = true -> SFleb a b = true.
Proof. sf_cases. Qed.

Lemma SFltb_leb_trans (a b c : spec_float) :
  SFltb a b = true -> SFleb b c = true -> SFltb a c = true.
Proof. sf_cases. Qed.

Lemma SFltb_false_leb (a b : spec_float) :
  a <> S754_nan -> b <> S754_nan -> SFltb a b = false -> SFleb b a = true.
Proof. sf_cases. Qed.

Lemma SFleb_ltb_false (a b : spec_float) : SFleb b a = true -> SFltb a b = false.
Proof. sf_cases. Qed.

Lemma SFeqb_refl_iff (a : spec_float) : SFeqb a a = true <-> a <> S754_nan.
Proof.
  unfold SFeqb, SFcompare.
  destruct a as [[]|[]| |[] m e]; simpl; try (split; congruence);
    rewrite Z.compare_refl; change (Pos.compare_cont Eq) with Pos.compare;
    rewrite Pos.compare_refl; simpl; split; congruence.
Qed.

Lemma SFleb_not_nan (a b : spec_float) :
  SFleb a b = true -> a <> S754_nan /\ b <> S754_nan.
Proof.
  unfold SFleb, SFcompare.
  destruct a as [[]|[]| |[] ? ?], b as [[]|[]| |[] ? ?]; simpl;
    split; congruence.
Qed.

(** [is_nan] recognises exactly the floats that decode to [S754_nan]. *)
Lemma is_nan_false_iff (x : float) : is_nan x = false <-> Prim2SF x <> S754_nan.
Proof.
  unfold is_nan. rewrite eqb_spec, negb_false_iff. apply SFeqb_refl_iff.
Qed.

Lemma leb_trans (x y z : float) :
  (x <=? y) = true -> (y <=? z) = true -> (x <=? z) = true.
Proof. rewrite !leb_spec. apply SFleb_trans. Qed.

Lemma ltb_leb (x y : float) : (x <? y) = true -> (x <=? y) = true.
Proof. rewrite ltb_spec, leb_spec. apply SFltb_leb. Qed.

Lemma ltb_leb_trans (x y z : float) :
  (x <? y) = true -> (y <=? z) = true -> (x <? z) = true.
Proof. rewrite !ltb_spec, leb_spec. apply SFltb_leb_trans. Qed.

Lemma ltb_false_leb (x y : float) :
  is_nan x = false -> is_nan y = false -> (x <? y) = false -> (y <=? x) = true.
Proof.
  rewrite !is_nan_false_iff, ltb_spec, leb_spec. apply SFltb_false_leb.
Qed.

Lemma leb_ltb_false (x y : float) : (y <=? x) = true -> (x <? y) = false.
Proof. rewrite ltb_spec, leb_spec. apply SFleb_ltb_false. Qed.

Lemma leb_not_nan (x y : float) :
  (x <=? y) = true -> is_nan x = false /\ is_nan y = false.
Proof. rewrite !is_nan_false_iff, leb_spec. apply SFleb_not_nan. Qed.

Lemma ltb_not_nan (x y : float) :
  (x <? y) = true -> is_nan x = false /\ is_nan y = false.
Proof. intros H. apply leb_not_nan, ltb_leb, H. Qed.

Lemma leb_total (x y : float) :
  is_nan x = false -> is_nan y = false -> (x <=? y) = true \/ (y <=? x) = true.
Proof.
  intros Hx Hy. destruct (x <? y) eqn:E.
  - left. now apply ltb_leb.
  - right. now apply ltb_false_leb.
Qed.

(** No float lies both strictly below [a] and at or above some [b >= a]. *)
Lemma ltb_leb_absurd (x a b : float) :
  (x <? a) = true -> (a <=? b) = true -> (b <=? x) = true -> False.
Proof.
  intros H1 H2 H3. pose proof (ltb_leb_trans _ _ _ H1 H2) as H.
  rewrite (leb_ltb_false _ _ H3) in H. discriminate.
Qed.

End FloatOrder.

(* ================================================================= *)
(** ** BMI classification *)

Section BmiBuckets.

#[local] Open Scope float_scope.

(** Closes a goal whose hypotheses put [bmi] strictly below one threshold
    and at or above a threshold that is not smaller. *)
Ltac bucket_clash :=
  match goal with
  | Hlt : (?x <? ?a) = true, Hle : (?b <=? ?x) = true |- _ =>
      exfalso; apply (FloatOrder.ltb_leb_absurd x a b Hlt); [reflexivity | exact Hle]
  | Hlt : (?x <? ?a) = true, Hge : (?x <? ?b) = false |- _ =>
      exfalso;
      assert ((x <? b) = true) by (apply (FloatOrder.ltb_leb_trans x a b Hlt); reflexivity);
      congruence
  end.

Ltac bucket_side :=
  first
    [ reflexivity
    | assumption
    | match goal with
      | Hlt : (?x <? _) = true, Hge : (?x <? ?a) = false |- (?a <=? ?x) = true =>
          apply FloatOrder.ltb_false_leb;
          [apply (FloatOrder.ltb_not_nan _ _ Hlt) | reflexivity | exact Hge]
      end
    | bucket_clash
    | congruence ].

Ltac split_conj := repeat match goal with |- _ /\ _ => split end.

Ltac bucket_iff :=
  split; [ intros Hcase; try discriminate Hcase; split_conj; bucket_side
         | intros Hrange;
           repeat match goal with H : _ /\ _ |- _ => destruct H end;
           first [ reflexivity | bucket_clash | congruence ] ].

Lemma bmi_case_of_buckets (bmi : float) :
  (bmi_case_of bmi = "sever thinness" <-> (bmi <? 16) = true) /\
  (bmi_case_of bmi = "moderate thinness" <-> (16 <=? bmi) = true /\ (bmi <? 17) = true) /\
  (bmi_case_of bmi = "mild thinness" <-> (17 <=? bmi) = true /\ (bmi <? 18.5) = true) /\
  (bmi_case_of bmi = "normal" <-> (18.5 <=? bmi) = true /\ (bmi <? 25) = true) /\
  (bmi_case_of bmi = "over weight" <-> (25 <=? bmi) = true /\ (bmi <? 30) = true) /\
  (bmi_case_of bmi = "obese" <-> (30 <=? bmi) = true /\ (bmi <? 35) = true) /\
  (bmi_case_of bmi = "severe obese" <-> (bmi <? 35) = false).
Proof.
  unfold bmi_case_of.
  destruct (bmi <? 16) eqn:H16; [ split_conj; bucket_iff | ].
  destruct (bmi <? 17) eqn:H17; [ split_conj; bucket_iff | ].
  destruct (bmi <? 18.5) eqn:H18; [ split_conj; bucket_iff | ].
  destruct (bmi <? 25) eqn:H25; [ split_conj; bucket_iff | ].
  destruct (bmi <? 30) eqn:H30; [ split_conj; bucket_iff | ].
  destruct (bmi <? 35) eqn:H35; split_conj; bucket_iff.
Qed.

End BmiBuckets.

(** C4 (amended). For every weight and every height whose square is a
    non-zero float (so for every weight > 0 and height > 0 whose square
    does not underflow), [calculate_bmi_case] returns
    [bmi = weight / (height * height)] together with the label of the first
    bucket that holds it, upper bounds exclusive:
    bmi < 16 gives "sever thinness", 16 <= bmi < 17 "moderate thinness",
    17 <= bmi < 18.5 "mild thinness", 18.5 <= bmi < 25 "normal",
    25 <= bmi < 30 "over weight", 30 <= bmi < 35 "obese", and everything
    else "severe obese". The labels are the ones the code spells. *)
Theorem calculate_bmi_case_buckets (weight height : float) :
  (height * height =? 0)%float = false ->
  exists bmi case,
    calculate_bmi_case weight height = Ok (bmi, case) /\
    bmi = (weight / (height * height))%float /\
    (case = "sever thinness" <-> (bmi <? 16)%float = true) /\
    (case = "moderate thinness" <->
       (16 <=? bmi)%float = true /\ (bmi <? 17)%float = true) /\
    (case = "mild thinness" <->
       (17 <=? bmi)%float = true /\ (bmi <? 18.5)%float = true) /\
    (case = "normal" <->
       (18.5 <=? bmi)%float = true /\ (bmi <? 25)%float = true) /\
    (case = "over weight" <->
       (25 <=? bmi)%float = true /\ (bmi <? 30)%float = true) /\
    (case = "obese" <->
       (30 <=? bmi)%float = true /\ (bmi <? 35)%float = true) /\
    (case = "severe obese" <-> (bmi <? 35)%float = false).
Proof.
  intros Hz. unfold calculate_bmi_case, PyFloat.truediv. rewrite Hz. simpl.
  eexists _, _. split; [reflexivity | split; [reflexivity | ]].
  apply bmi_case_of_buckets.
Qed.

(** The bucketing at weight 70, height 1.75: the label is "normal". *)
Lemma calculate_bmi_case_buckets_witness :
  exists bmi, calculate_bmi_case 70 1.75 = Ok (bmi, "normal").
Proof.
  destruct (calculate_bmi_case_buckets 70 1.75 eq_refl)
    as (bmi & case & Hret & Hbmi & _ & _ & _ & Hnormal & _).
  exists bmi. rewrite Hret. f_equal. f_equal.
  apply Hnormal. rewrite Hbmi. split; reflexivity.
Defined.

(** C4 as stated fails on the labels: a bmi of 10 is labelled
    "sever thinness", not "severe thinness", and a bmi of 27 is labelled
    "over weight", not "overweight". *)
Lemma calculate_bmi_case_labels_differ :
  calculate_bmi_case 40 2 = Ok (10%float, "sever thinness") /\
  "sever thinness" <> "severe thinness" /\
  calculate_bmi_case 108 2 = Ok (27%float, "over weight") /\
  "over weight" <> "overweight".
Proof. repeat split; try reflexivity; discriminate. Qed.

(* ================================================================= *)
(** ** Plan assignment *)

Lemma bmi_case_of_in (bmi : float) : In (bmi_case_of bmi) bmi_cases.
Proof.
  unfold bmi_case_of, bmi_cases.
  repeat match goal with
  | |- context [if ?b then _ else _] => destruct b
  end; simpl; tauto.
Qed.

Lemma get_plan_defined (c : string) :
  In c bmi_cases <-> exists p, get_plan c = Ok p.
Proof.
  split.
  - intros Hin. simpl in Hin.
    repeat (destruct Hin as [<- | Hin]; [eexists; reflexivity | ]).
    contradiction.
  - intros [p Hp]. unfold get_plan, dict_get, mapping in Hp. cbn [dict_find] in Hp.
    repeat match type of Hp with
    | context [if ?k =? c then _ else _] =>
        destruct (String.eqb_spec k c) as [<- | _]; [simpl; tauto | ]
    end.
    discriminate.
Qed.

Lemma get_plan_range (c : string) (p : Z) :
  get_plan c = Ok p -> (1 <= p <= 7)%Z.
Proof.
  unfold get_plan, dict_get, mapping. cbn [dict_find].
  repeat match goal with
  | |- context [if ?k =? c then _ else _] => destruct (k =? c)
  end; intros Hp; inversion Hp; lia.
Qed.

Lemma get_plan_injective (c1 c2 : string) (p : Z) :
  get_plan c1 = Ok p -> get_plan c2 = Ok p -> c1 = c2.
Proof.
  unfold get_plan, dict_get, mapping. cbn [dict_find].
  repeat match goal with
  | |- context [if ?k =? c1 then _ else _] =>
      destruct (String.eqb_spec k c1) as [<- | _]
  end;
  repeat match goal with
  | |- context [if ?k =? c2 then _ else _] =>
      destruct (String.eqb_spec k c2) as [<- | _]
  end;
  intros H1 H2; inversion H1; subst; inversion H2; reflexivity.
Qed.

(** C7 (amended). [get_plan] is defined exactly on the seven labels that
    [calculate_bmi_case] produces, sends them, in the order of the buckets,
    to 1, 2, ..., 7 ("sever thinness" to 1, "moderate thinness" to 2,
    "mild thinness" to 3, "normal" to 4, "over weight" to 5, "obese" to 6,
    "severe obese" to 7), is injective, and reaches every integer of 1..7
    and nothing else; so every classified input gets a plan in 1..7. *)
Theorem get_plan_bijection :
  map get_plan bmi_cases = map Ok [1; 2; 3; 4; 5; 6; 7]%Z /\
  map bmi_case_of [10; 16.5; 18; 20; 27; 32; 40]%float = bmi_cases /\
  NoDup bmi_cases /\
  (forall c, In c bmi_cases <-> exists p, get_plan c = Ok p) /\
  (forall c1 c2 p, get_plan c1 = Ok p -> get_plan c2 = Ok p -> c1 = c2) /\
  (forall p, (1 <= p <= 7)%Z <-> exists c, get_plan c = Ok p) /\
  (forall weight height bmi c,
     calculate_bmi_case weight height = Ok (bmi, c) ->
     exists p, get_plan c = Ok p /\ (1 <= p <= 7)%Z).
Proof.
  split; [reflexivity | ]. split; [reflexivity | ].
  split.
  { unfold bmi_cases.
    repeat (constructor; [simpl; intuition discriminate | ]). constructor. }
  split; [exact get_plan_defined | ].
  split; [exact get_plan_injective | ].
  split.
  { intros p. split.
    - intros Hp.
      assert (p = 1 \/ p = 2 \/ p = 3 \/ p = 4 \/ p = 5 \/ p = 6 \/ p = 7)%Z
        as Hcases by lia.
      exists (nth (Z.to_nat (p - 1)) bmi_cases "").
      repeat (destruct Hcases as [-> | Hcases]; [reflexivity | ]).
      subst p. reflexivity.
    - intros [c Hc]. exact (get_plan_range c p Hc). }
  intros weight height bmi c Hret.
  unfold calculate_bmi_case, PyFloat.truediv in Hret.
  destruct (height * height =? 0)%float; simpl in Hret; [discriminate | ].
  inversion Hret; subst.
  destruct (proj1 (get_plan_defined _) (bmi_case_of_in (weight / (height * height))))
    as [p Hp].
  exists p. split; [exact Hp | exact (get_plan_range _ _ Hp)].
Qed.

(** C7 as stated fails on the labels: [get_plan] has no entry for
    "severe thinness" or "overweight" and raises [KeyError] on them; the
    keys are spelled "sever thinness" and "over weight". *)
Lemma get_plan_labels_differ :
  get_plan "severe thinness" = Raise (KeyError "severe thinness") /\
  get_plan "overweight" = Raise (KeyError "overweight") /\
  get_plan "sever thinness" = Ok 1%Z /\
  get_plan "over weight" = Ok 5%Z.
Proof. repeat split; reflexivity. Qed.

(* ================================================================= *)
(** ** Body-fat estimate *)

Lemma max_zero_nonneg (x : float) : (0 <=? PyFloat.max 0 x)%float = true.
Proof.
  unfold PyFloat.max. destruct (0 <? x)%float eqn:E.
  - now apply FloatOrder.ltb_leb.
  - reflexivity.
Qed.

Lemma max_zero_upper (x : float) :
  is_nan x = false -> (x <=? PyFloat.max 0 x)%float = true.
Proof.
  intros Hx. unfold PyFloat.max. destruct (0 <? x)%float eqn:E.
  - destruct (FloatOrder.leb_total x x Hx Hx); assumption.
  - now apply FloatOrder.ltb_false_leb.
Qed.

Lemma of_int_small (g : Z) :
  (Z.abs g < PyFloat.int_bound)%Z -> PyFloat.of_int g = Ok (PyFloat.of_Z g).
Proof.
  intros Hg. unfold PyFloat.of_int.
  now destruct (Z.ltb_spec (Z.abs g) PyFloat.int_bound); [ | lia].
Qed.

Lemma of_int_large (g : Z) :
  (PyFloat.int_bound <= Z.abs g)%Z -> PyFloat.of_int g = Raise OverflowError.
Proof.
  intros Hg. unfold PyFloat.of_int.
  now destruct (Z.ltb_spec (Z.abs g) PyFloat.int_bound); [lia | ].
Qed.

(** [estimate_bfp] returns for every age that converts to a float. *)
Lemma estimate_bfp_ok (bmi : float) (gender : string) (age : Z) :
  (Z.abs age < PyFloat.int_bound)%Z ->
  exists bfp, estimate_bfp bmi gender age = Ok bfp.
Proof.
  intros Hage. unfold estimate_bfp, bfp_linear.
  rewrite (of_int_small age Hage).
  destruct (gender =? "male"); eexists; reflexivity.
Qed.

(** C5. [estimate_bfp] computes
    [max(0, 1.20*bmi + 0.23*age - 10.8*genderMale - 5.4)], where
    [genderMale] is 1 exactly when the gender is "male" and 0 otherwise.
    The result is 0 or the linear value, is at least 0 (so never negative
    and never [nan]) and at least the linear value. The formula is evaluated
    for every age that converts to a float; a larger magnitude makes the
    product [0.23*age] itself raise [OverflowError]. *)
Theorem estimate_bfp_formula (bmi : float) (gender : string) (age : Z) :
  let genderMale := if gender =? "male" then 1%Z else 0%Z in
  let linear :=
    (1.20 * bmi + 0.23 * PyFloat.of_Z age
     - 10.8 * PyFloat.of_Z genderMale - 5.4)%float in
  ((gender = "male" -> genderMale = 1%Z) /\
   (gender <> "male" -> genderMale = 0%Z)) /\
  ((Z.abs age < PyFloat.int_bound)%Z ->
     exists bfp,
       estimate_bfp bmi gender age = Ok bfp /\
       bfp = PyFloat.max 0 linear /\
       (bfp = linear \/ bfp = 0%float) /\
       (0 <=? bfp)%float = true /\
       is_nan bfp = false /\
       (is_nan linear = false -> (linear <=? bfp)%float = true)) /\
  ((PyFloat.int_bound <= Z.abs age)%Z ->
     estimate_bfp bmi gender age = Raise OverflowError).
Proof.
  intros genderMale linear.
  assert (Hg : PyFloat.of_int genderMale = Ok (PyFloat.of_Z genderMale)).
  { subst genderMale. destruct (gender =? "male"); reflexivity. }
  split; [ | split].
  - subst genderMale. destruct (String.eqb_spec gender "male"); split; congruence.
  - intros Hage. exists (PyFloat.max 0 linear).
    split.
    { unfold estimate_bfp, bfp_linear. fold genderMale.
      rewrite (of_int_small age Hage), Hg. reflexivity. }
    split; [reflexivity | ].
    split.
    { unfold PyFloat.max. destruct (0 <? linear)%float; [now left | now right]. }
    split; [apply max_zero_nonneg | ].
    split; [ | apply max_zero_upper].
    exact (proj2 (FloatOrder.leb_not_nan _ _ (max_zero_nonneg linear))).
  - intros Hage. unfold estimate_bfp, bfp_linear.
    rewrite (of_int_large age Hage). reflexivity.
Qed.

(** The estimate for a bmi of 70/1.75^2, a male of 30: about 18.13. *)
Lemma estimate_bfp_formula_witness :
  estimate_bfp (70 / (1.75 * 1.75)) "male" 30 = Ok 18.128571428571426%float.
Proof.
  destruct (estimate_bfp_formula (70 / (1.75 * 1.75)) "male" 30)
    as (_ & Hin & _).
  destruct Hin as (bfp & Hret & Hbfp & _); [reflexivity | ].
  rewrite Hret, Hbfp. reflexivity.
Defined.

(* ================================================================= *)
(** ** Body-fat classification *)

Lemma bfp_scan_first (bfp : float) (before after : dict (float * float))
  (c : string) (band : float * float) :
  Forall (outside bfp) before ->
  in_range bfp band = true ->
  bfp_scan (before ++ (c, band) :: after)%list bfp = c.
Proof.
  intros Hbefore Hband. induction Hbefore as [ | [c' band'] rest Hout _ IH]; simpl.
  - now rewrite Hband.
  - unfold outside in Hout. simpl in Hout. now rewrite Hout.
Qed.

Lemma bfp_scan_none (bfp : float) (items : dict (float * float)) :
  Forall (outside bfp) items -> bfp_scan items bfp = "Obese".
Proof.
  induction 1 as [ | [c band] rest Hout _ IH]; simpl; [reflexivity | ].
  unfold outside in Hout. simpl in Hout. now rewrite Hout.
Qed.

Lemma above_100_outside (bfp : float) (gender : string) :
  (100 <? bfp)%float = true -> Forall (outside bfp) (bfp_table gender).
Proof.
  intros Habove.
  assert (Hhi : forall lo hi : float,
             (hi <=? 100)%float = true -> in_range bfp (lo, hi) = false).
  { intros lo hi Hle. unfold in_range.
    destruct (bfp <=? hi)%float eqn:E; [ | apply andb_false_r].
    exfalso. exact (FloatOrder.ltb_leb_absurd _ _ _ Habove E Hle). }
  unfold bfp_table, BFP_STANDARDS_MALE, BFP_STANDARDS_FEMALE.
  destruct (gender =? "male");
    repeat (constructor; [apply Hhi; reflexivity | ]); constructor.
Qed.

(** C2 (amended). For every gender string and every bfp, [bfp_case] scans
    the table chosen by the gender, whose five inclusive ranges are listed
    as Essential, Athletes, Fitness, Acceptable, Obese, and returns the label
    of the first range that contains bfp; when no range contains it the
    fallback returns "Obese", and every bfp above 100 ends there. *)
Theorem bfp_case_first_match (bfp : float) (gender : string) :
  map fst (bfp_table gender) =
    ["Essential"; "Athletes"; "Fitness"; "Acceptable"; "Obese"] /\
  (forall before c band after,
     bfp_table gender = (before ++ (c, band) :: after)%list ->
     Forall (outside bfp) before ->
     in_range bfp band = true ->
     bfp_case bfp gender = c) /\
  (Forall (outside bfp) (bfp_table gender) -> bfp_case bfp gender = "Obese") /\
  ((100 <? bfp)%float = true ->
     Forall (outside bfp) (bfp_table gender) /\ bfp_case bfp gender = "Obese").
Proof.
  split; [unfold bfp_table; destruct (gender =? "male"); reflexivity | ].
  split.
  { intros before c band after Htable Hbefore Hband.
    unfold bfp_case. rewrite Htable. now apply bfp_scan_first. }
  split; [apply bfp_scan_none | ].
  intros Habove. pose proof (above_100_outside bfp gender Habove) as Hout.
  split; [exact Hout | now apply bfp_scan_none].
Qed.

(** A bfp of 15.5 for a male: the third range, Fitness (14 to 17), is the
    first that contains it. *)
Lemma bfp_case_first_match_witness : bfp_case 15.5 "male" = "Fitness".
Proof.
  destruct (bfp_case_first_match 15.5 "male") as (_ & Hfirst & _).
  apply (Hfirst [("Essential", (2, 5)); ("Athletes", (6, 13))]%float
           "Fitness" (14, 17)%float
           [("Acceptable", (18, 24)); ("Obese", (25, 100))]%float).
  - reflexivity.
  - repeat constructor.
  - reflexivity.
Defined.

(** C2 as stated fails: the fallback is reached well below 100. A male of
    58 kg, 1.75 m and 30 years has a normal bmi and an estimated bfp of
    about 13.43, which lies between the ranges 6..13 and 14..17: no range
    contains it and the answer is the fallback "Obese". The same happens
    below the first lower bound: a bfp of 0, the value the estimate is
    clamped to, is in no range of either table. *)
Lemma bfp_case_fallback_below_100 :
  calculate_bmi_case 58 1.75 = Ok (18.938775510204081%float, "normal") /\
  estimate_bfp 18.938775510204081 "male" 30 = Ok 13.426530612244898%float /\
  (0 <=? 13.426530612244898)%float = true /\
  (100 <? 13.426530612244898)%float = false /\
  forallb (fun entry => negb (in_range 13.426530612244898 (snd entry)))
    BFP_STANDARDS_MALE = true /\
  bfp_case 13.426530612244898 "male" = "Obese" /\
  forallb (fun entry => negb (in_range 0 (snd entry)))
    BFP_STANDARDS_FEMALE = true /\
  bfp_case 0 "female" = "Obese" /\
  bfp_case 0 "male" = "Obese".
Proof. repeat split; reflexivity. Qed.

(* ================================================================= *)
(** ** The descending order on ratings, and two sorts that respect it *)

Lemma rating_desc_total (a b : ExerciseRecord) :
  rating_desc a b \/ rating_desc b a.
Proof.
  unfold rating_desc, rating_desc_b.
  destruct (is_nan (Rating b)) eqn:Hb; [now left | ].
  destruct (is_nan (Rating a)) eqn:Ha; [now right | ].
  simpl. destruct (FloatOrder.leb_total _ _ Ha Hb); [now right | now left].
Qed.

Lemma rating_desc_trans (a b c : ExerciseRecord) :
  rating_desc a b -> rating_desc b c -> rating_desc a c.
Proof.
  unfold rating_desc, rating_desc_b. intros Hab Hbc.
  destruct (is_nan (Rating c)) eqn:Hc; [reflexivity | ].
  simpl in *. apply andb_true_iff in Hbc as [Hb Hcb].
  apply negb_true_iff in Hb. rewrite Hb in Hab. simpl in Hab.
  apply andb_true_iff in Hab as [Ha Hba]. rewrite Ha. simpl.
  exact (FloatOrder.leb_trans _ _ _ Hcb Hba).
Qed.

(** On rows that all carry a rating, the order is [>=] on the ratings. *)
Lemma rating_desc_leb (a b : ExerciseRecord) :
  is_nan (Rating b) = false -> rating_desc a b ->
  (Rating b <=? Rating a)%float = true.
Proof.
  unfold rating_desc, rating_desc_b. intros Hb H. rewrite Hb in H.
  simpl in H. now apply andb_true_iff in H.
Qed.

Section InsertionSort.

Variable before : ExerciseRecord -> ExerciseRecord -> bool.
Hypothesis before_true : forall x y, before x y = true -> rating_desc x y.
Hypothesis before_false : forall x y, before x y = false -> rating_desc y x.

Lemma insert_row_perm (x : ExerciseRecord) (rows : DataFrame) :
  Permutation (insert_row before x rows) (x :: rows).
Proof.
  induction rows as [ | y rest IH]; simpl; [reflexivity | ].
  destruct (before x y); [reflexivity | ].
  rewrite IH. apply perm_swap.
Qed.

Lemma insertion_sort_perm (rows : DataFrame) :
  Permutation (insertion_sort before rows) rows.
Proof.
  induction rows as [ | x rest IH]; simpl; [reflexivity | ].
  rewrite insert_row_perm. now constructor.
Qed.

Lemma insert_row_sorted (x : ExerciseRecord) (rows : DataFrame) :
  StronglySorted rating_desc rows ->
  StronglySorted rating_desc (insert_row before x rows).
Proof.
  induction 1 as [ | y rest Hrest IH Hy]; simpl.
  - repeat constructor.
  - destruct (before x y) eqn:E.
    + constructor; [now constructor | ].
      constructor; [now apply before_true | ].
      apply before_true in E.
      eapply Forall_impl; [ | exact Hy].
      intros z Hz. exact (rating_desc_trans _ _ _ E Hz).
    + constructor; [exact IH | ].
      eapply Permutation_Forall.
      * symmetry. apply insert_row_perm.
      * constructor; [now apply before_false | exact Hy].
Qed.

Lemma insertion_sort_sorted (rows : DataFrame) :
  StronglySorted rating_desc (insertion_sort before rows).
Proof.
  induction rows as [ | x rest IH]; simpl; [constructor | ].
  now apply insert_row_sorted.
Qed.

End InsertionSort.

Lemma stable_before_false (x y : ExerciseRecord) :
  stable_before x y = false -> rating_desc y x.
Proof.
  unfold stable_before. intros E.
  destruct (rating_desc_total x y) as [H | H]; [ | exact H].
  unfold rating_desc in H. congruence.
Qed.

Definition stable_sort : SortValues := {|
  sort_values_desc := insertion_sort stable_before;
  sort_values_perm := insertion_sort_perm stable_before;
  sort_values_sorted :=
    insertion_sort_sorted stable_before (fun x y E => E) stable_before_false
|}.







(** Two rows of equal rating come back in the order of the frame: below 18
    rows the introsort is an insertion sort, which moves no row past an
    equal one. *)
Lemma pandas_sort_values_two_rows :
  pandas_sort_values [bench_press; deadlift] = [bench_press; deadlift].
Proof. vm_compute. reflexivity. Qed.

(** On [tied_catalog] the rows are the ones taken at the indexer of
    [nargsort]: both checks pass. *)
Lemma pandas_sort_values_tied_catalog :
  exists indexer,
    nargsort (map Rating tied_catalog) = Some indexer /\
    pandas_sort_values tied_catalog = take tied_catalog indexer.
Proof.
  unfold pandas_sort_values.
  destruct (nargsort (map Rating tied_catalog)) as [indexer | ] eqn:E;
    [ | vm_compute in E; discriminate E].
  exists indexer. split; [reflexivity | ].
  vm_compute in E. injection E as <-. vm_compute. reflexivity.
Qed.

(* ================================================================= *)
(** ** The recommender *)

Lemma isin_In (x : string) (xs : list string) : isin x xs = true <-> In x xs.
Proof.
  unfold isin. rewrite existsb_exists. split.
  - intros (y & Hy & E). apply String.eqb_eq in E. now subst.
  - intros Hx. exists x. split; [exact Hx | apply String.eqb_refl].
Qed.

Lemma int_in_In (x : Z) (xs : list Z) : int_in x xs = true <-> In x xs.
Proof.
  unfold int_in. rewrite existsb_exists. split.
  - intros (y & Hy & E). apply Z.eqb_eq in E. now subst.
  - intros Hx. exists x. split; [exact Hx | apply Z.eqb_refl].
Qed.

Lemma In_firstn {A : Type} (x : A) (n : nat) (l : list A) :
  In x (firstn n l) -> In x l.
Proof.
  revert l. induction n as [ | n IH]; intros [ | y rest]; simpl; try tauto.
  intros [-> | Hin]; [now left | right; now apply IH].
Qed.

(** Every recommended row is a row of the catalog that passes the filter of
    the plan. *)
Lemma recommend_exercises_in `{SortValues} (df_mega : option DataFrame)
  (plan : Z) (r : ExerciseRecord) :
  In r (recommend_exercises df_mega plan) ->
  exists df, df_mega = Some df /\ In r df /\ plan_filter plan r = true.
Proof.
  unfold recommend_exercises. destruct df_mega as [df | ]; [ | contradiction].
  intros Hin. exists df. split; [reflexivity | ].
  apply filter_In.
  apply (Permutation_in r (sort_values_perm (filter (plan_filter plan) df))).
  eapply In_firstn. exact Hin.
Qed.

Lemma StronglySorted_firstn {A : Type} (R : A -> A -> Prop) (n : nat) (l : list A) :
  StronglySorted R l -> StronglySorted R (firstn n l).
Proof.
  intros Hl. revert n.
  induction Hl as [ | x rest Hrest IH Hx]; intros [ | n]; simpl; try constructor.
  - apply IH.
  - rewrite Forall_forall in *. intros y Hy. apply Hx.
    eapply In_firstn. exact Hy.
Qed.

Lemma StronglySorted_nth_error {A : Type} (R : A -> A -> Prop) (l : list A) :
  StronglySorted R l ->
  forall i j a b, (i < j)%nat ->
    nth_error l i = Some a -> nth_error l j = Some b -> R a b.
Proof.
  induction 1 as [ | x rest Hrest IH Hx]; intros i j a b Hij Ha Hb.
  - destruct i; discriminate.
  - destruct j as [ | j]; [lia | ]. simpl in Hb.
    destruct i as [ | i]; simpl in Ha.
    + inversion Ha; subst. rewrite Forall_forall in Hx.
      apply Hx. eapply nth_error_In. exact Hb.
    + apply (IH i j); [lia | assumption | assumption].
Qed.

(** The load block leaves only rows that carry a rating. *)
Lemma load_dataset_rated (csv : option DataFrame) (df : DataFrame) :
  load_dataset csv = Some df -> rated df.
Proof.
  destruct csv as [rows | ]; simpl; [ | discriminate].
  intros E. inversion E; subst. unfold rated.
  rewrite Forall_map. rewrite Forall_forall. intros r Hr.
  apply filter_In in Hr as [_ Hr]. simpl. now apply negb_true_iff in Hr.
Qed.

(** A frame the load block has cleaned holds only rows that carry a
    rating. *)
Lemma load_block_rated (csv : option CsvFrame) (df : DataFrame) :
  load_block csv = CatalogLoaded df -> rated df.
Proof.
  destruct csv as [[rows | rows] | ]; simpl; try discriminate.
  intros E. inversion E; subst. unfold rated.
  rewrite Forall_map. rewrite Forall_forall. intros r Hr.
  apply filter_In in Hr as [_ Hr]. simpl. now apply negb_true_iff in Hr.
Qed.

(** The recommendations are in the order of the sort, cut at 10 rows. *)
Lemma recommend_exercises_sorted `{SortValues}
  (df_mega : option DataFrame) (plan : Z) :
  StronglySorted rating_desc (recommend_exercises df_mega plan).
Proof.
  unfold recommend_exercises. destruct df_mega as [df | ]; [ | constructor].
  apply StronglySorted_firstn, sort_values_sorted.
Qed.

(** On a catalog whose rows all carry a rating the ratings never increase
    along the recommendations. *)
Lemma recommend_exercises_rated_descending `{SortValues}
  (df : DataFrame) (plan : Z) :
  rated df -> descending (recommend_exercises (Some df) plan).
Proof.
  intros Hrated i j a b Hij Ha Hb.
  apply rating_desc_leb.
  - apply nth_error_In in Hb.
    apply recommend_exercises_in in Hb as (df' & Hdf' & Hin & _).
    inversion Hdf'; subst df'.
    unfold rated in Hrated. rewrite Forall_forall in Hrated. now apply Hrated.
  - exact (StronglySorted_nth_error _ _ (recommend_exercises_sorted (Some df) plan)
             i j a b Hij Ha Hb).
Qed.






(** Closes a case of the predicate that belongs to another plan. *)
Ltac other_plan :=
  intros;
  repeat match goal with
  | H : In _ (_ :: _) |- _ => progress simpl in H
  | H : ~ In _ (_ :: _) |- _ => progress simpl in H
  end;
  exfalso; lia.

(** C6. Every row returned by [recommend_exercises] is a catalog row that
    satisfies the predicate of the plan: for plans 1, 2, 3 its type is
    Strength or Olympic Weightlifting, its level Beginner or Intermediate and
    its body part Chest, Back, Legs or Shoulders; for plan 4 its level is
    Intermediate; for plans 5, 6 its type is Cardio or Strength and its body
    part Legs, Glutes, Full Body or Abdominals; for 7 and every other value
    its level is Beginner. *)
Theorem recommend_exercises_predicate `{SortValues}
  (df_mega : option DataFrame) (plan : Z) (r : ExerciseRecord) :
  In r (recommend_exercises df_mega plan) ->
  (exists df, df_mega = Some df /\ In r df) /\
  (In plan [1; 2; 3]%Z ->
     In (Type_ r) ["Strength"; "Olympic Weightlifting"] /\
     In (Level r) ["Beginner"; "Intermediate"] /\
     In (BodyPart r) ["Chest"; "Back"; "Legs"; "Shoulders"]) /\
  (plan = 4%Z -> Level r = "Intermediate") /\
  (In plan [5; 6]%Z ->
     In (Type_ r) ["Cardio"; "Strength"] /\
     In (BodyPart r) ["Legs"; "Glutes"; "Full Body"; "Abdominals"]) /\
  (~ In plan [1; 2; 3; 4; 5; 6]%Z -> Level r = "Beginner").
Proof.
  intros Hin.
  apply recommend_exercises_in in Hin as (df & Hdf & Hr & Hpass).
  split; [now exists df | ].
  unfold plan_filter in Hpass.
  destruct (int_in plan [1; 2; 3]%Z) eqn:E123.
  { apply int_in_In in E123.
    apply andb_true_iff in Hpass as [Hpass Hbody].
    apply andb_true_iff in Hpass as [Htype Hlevel].
    apply isin_In in Htype, Hlevel, Hbody.
    repeat split; solve [assumption | other_plan]. }
  assert (N123 : ~ In plan [1; 2; 3]%Z).
  { intros Hc. apply int_in_In in Hc. congruence. }
  destruct (Z.eqb_spec plan 4) as [E4 | N4].
  { apply String.eqb_eq in Hpass.
    repeat split; solve [intros; assumption | other_plan]. }
  destruct (int_in plan [5; 6]%Z) eqn:E56.
  { apply int_in_In in E56.
    apply andb_true_iff in Hpass as [Htype Hbody].
    apply isin_In in Htype, Hbody.
    repeat split; solve [assumption | other_plan]. }
  assert (N56 : ~ In plan [5; 6]%Z).
  { intros Hc. apply int_in_In in Hc. congruence. }
  apply String.eqb_eq in Hpass.
  repeat split; solve [intros; assumption | other_plan].
Qed.

(** Plan 4 on a three-row catalog: the returned [bench_press] row is a
    catalog row of level Intermediate. *)
Lemma recommend_exercises_predicate_witness :
  In bench_press (@recommend_exercises stable_sort
     (Some [jumping_jacks; bench_press; deadlift]) 4) /\
  Level bench_press = "Intermediate".
Proof.
  assert (Hin : In bench_press (@recommend_exercises stable_sort
                   (Some [jumping_jacks; bench_press; deadlift]) 4))
    by (left; reflexivity).
  split; [exact Hin | ].
  destruct (@recommend_exercises_predicate stable_sort _ _ _ Hin)
    as (_ & _ & H4 & _).
  exact (H4 eq_refl).
Defined.

(* ================================================================= *)
(** ** The /fitness route *)

Section FitnessRoute.

Context `{SortValues}.
Variable round : float -> Z -> float.


(** With [df_mega] left at [None] or bound to the cleaned frame the route
    is [fitness_route] on that catalog. *)
Lemma fitness_route_on_none (weight height : float) (age : Z) (gender : string) :
  fitness_route_on round CatalogNone weight height age gender =
    fitness_route round None weight height age gender.
Proof.
  unfold fitness_route_on, fitness_route.
  destruct (calculate_bmi_case weight height) as [[bmi c] | e]; simpl;
    [ | reflexivity].
  destruct (estimate_bfp bmi gender age) as [bfp | e]; simpl; [ | reflexivity].
  destruct (get_plan c) as [plan | e]; reflexivity.
Qed.

Lemma fitness_route_on_loaded (df : DataFrame)
  (weight height : float) (age : Z) (gender : string) :
  fitness_route_on round (CatalogLoaded df) weight height age gender =
    fitness_route round (Some df) weight height age gender.
Proof.
  unfold fitness_route_on, fitness_route.
  destruct (calculate_bmi_case weight height) as [[bmi c] | e]; simpl;
    [ | reflexivity].
  destruct (estimate_bfp bmi gender age) as [bfp | e]; simpl; [ | reflexivity].
  destruct (get_plan c) as [plan | e]; reflexivity.
Qed.

(** With [df_mega] bound to the raw frame the route raises once the
    assessment has been computed. *)
Lemma fitness_route_on_raw (rows : list RawRow.t)
  (weight height : float) (age : Z) (gender : string) :
  (height * height =? 0)%float = false ->
  (Z.abs age < PyFloat.int_bound)%Z ->
  fitness_route_on round (CatalogRaw rows) weight height age gender =
    Raise (KeyError "Rating").
Proof.
  intros Hz Hage.
  destruct (estimate_bfp_ok (weight / (height * height)) gender age Hage)
    as (bfp & Hbfp).
  destruct (proj1 (get_plan_defined _)
              (bmi_case_of_in (weight / (height * height)))) as [plan Hplan].
  unfold fitness_route_on, calculate_bmi_case, PyFloat.truediv.
  rewrite Hz. simpl. rewrite Hbfp. simpl. rewrite Hplan. reflexivity.
Qed.

End FitnessRoute.




Lemma sort_values_nil `{SortValues} : sort_values_desc [] = [].
Proof.
  apply Permutation_nil. symmetry. apply sort_values_perm.
Qed.

(** A dataset file of one row that has no [Rating] column. *)
Definition unrated_file : list RawRow.t :=
  [ {| RawRow.Title := "Push_Up"; RawRow.Type_ := "Strength";
       RawRow.BodyPart := "Chest"; RawRow.Equipment := "Body_Only";
       RawRow.Level := "Beginner" |} ].

(** C8 (defect of the code). The catalog can fail to load after
    [read_csv] has returned: on a file without a [Rating] column [dropna]
    raises, the handler swallows the error, and [df_mega] stays bound to the
    frame as it was read. It is then not [None], so the guard of
    [recommend_exercises] lets the call through and [sort_values] raises
    [KeyError] for every plan, on an empty file too; [fitness_route] raises
    with it after the assessment has been computed, and nothing is returned.
    Where the load fails in [read_csv] itself the code does what C8 says:
    [df_mega] is [None], the list is empty and the route is the one of the
    missing catalog. *)
Theorem recommend_exercises_after_failed_load `{SortValues}
  (round : float -> Z -> float) (rows : list RawRow.t)
  (weight height : float) (age : Z) (gender : string) :
  (height * height =? 0)%float = false ->
  (Z.abs age < PyFloat.int_bound)%Z ->
  load_block (Some (WithoutRating rows)) = CatalogRaw rows /\
  (forall plan,
     recommend_exercises_on (load_block (Some (WithoutRating rows))) plan
       = Raise (KeyError "Rating")) /\
  fitness_route_on round (load_block (Some (WithoutRating rows)))
    weight height age gender = Raise (KeyError "Rating") /\
  (forall plan, recommend_exercises_on (load_block None) plan = Ok []) /\
  fitness_route_on round (load_block None) weight height age gender =
    fitness_route round None weight height age gender.
Proof.
  intros Hz Hage.
  split; [reflexivity | ]. split; [reflexivity | ].
  split; [exact (fitness_route_on_raw round rows _ _ _ _ Hz Hage) | ].
  split; [reflexivity | ].
  exact (fitness_route_on_none round _ _ _ _).
Qed.

(** The file [unrated_file], then weight 70, height 1.75, age 30, male: the
    recommender and the route raise [KeyError]. *)
Lemma recommend_exercises_after_failed_load_witness :
  @recommend_exercises_on stable_sort
    (load_block (Some (WithoutRating unrated_file))) 4
    = Raise (KeyError "Rating") /\
  @fitness_route_on stable_sort (fun x _ => x)
    (load_block (Some (WithoutRating unrated_file))) 70 1.75 30 "male"
    = Raise (KeyError "Rating").
Proof.
  destruct (@recommend_exercises_after_failed_load stable_sort (fun x _ => x)
              unrated_file 70 1.75 30%Z "male")%float
    as (_ & Hrec & Hroute & _); [reflexivity | reflexivity | ].
  split; [exact (Hrec 4%Z) | exact Hroute].
Defined.

(** C10. A gender string other than "male" is processed as "female": the
    female table is used, the gender term of the estimate is 10.8 * 0, and
    [estimate_bfp], [bfp_case] and the whole route give what they give for
    "female"; nothing is rejected. *)
Theorem non_male_gender_as_female (gender : string) :
  gender <> "male" ->
  bfp_table gender = BFP_STANDARDS_FEMALE /\
  (forall bmi age,
     estimate_bfp bmi gender age =
       (x <- bfp_linear bmi 0 age ;; Ok (PyFloat.max 0 x))) /\
  (forall bmi age,
     estimate_bfp bmi gender age = estimate_bfp bmi "female" age) /\
  (forall bfp, bfp_case bfp gender = bfp_case bfp "female") /\
  (forall (S : SortValues) round df_mega weight height age,
     fitness_route round df_mega weight height age gender =
     fitness_route round df_mega weight height age "female").
Proof.
  intros Hgender.
  assert (E : (gender =? "male") = false) by now apply String.eqb_neq.
  assert (Hest : forall bmi age,
            estimate_bfp bmi gender age = estimate_bfp bmi "female" age).
  { intros bmi age. unfold estimate_bfp. now rewrite E. }
  assert (Hcase : forall bfp, bfp_case bfp gender = bfp_case bfp "female").
  { intros bfp. unfold bfp_case, bfp_table. now rewrite E. }
  split; [unfold bfp_table; now rewrite E | ].
  split; [intros bmi age; unfold estimate_bfp; now rewrite E | ].
  split; [exact Hest | ]. split; [exact Hcase | ].
  intros S round df_mega weight height age. unfold fitness_route.
  destruct (calculate_bmi_case weight height) as [[bmi case] | e];
    simpl; [ | reflexivity].
  rewrite Hest. destruct (estimate_bfp bmi "female" age); simpl; [ | reflexivity].
  now rewrite Hcase.
Qed.

(** "Male" with a capital is read as female: a bfp of 28 is "Acceptable"
    (female range 25..31), where the male table says "Obese". *)
Lemma non_male_gender_as_female_witness :
  bfp_case 28 "Male" = "Acceptable" /\ bfp_case 28 "male" = "Obese".
Proof.
  destruct (non_male_gender_as_female "Male") as (_ & _ & _ & Hcase & _);
    [discriminate | ].
  split; [rewrite Hcase | ]; reflexivity.
Defined.

(* ================================================================= *)
(** ** The prediction pipeline *)

Lemma bind_ok {A B : Type} (m : result A) (k : A -> result B) (b : B) :
  bind m k = Ok b -> exists a, m = Ok a /\ k a = Ok b.
Proof.
  destruct m as [a | e]; simpl; [ | discriminate].
  intros Hk. now exists a.
Qed.

Lemma index_of_some (y : string) (classes : list string) (i : nat) :
  index_of y classes = Some i -> nth_error classes i = Some y.
Proof.
  revert i. induction classes as [ | c rest IH]; simpl; [discriminate | ].
  intros i. destruct (String.eqb_spec c y) as [-> | _].
  - intros E. inversion E. reflexivity.
  - destruct (index_of y rest) as [k | ]; [ | discriminate].
    intros E. inversion E. simpl. now apply IH.
Qed.

Lemma index_of_none (y : string) (classes : list string) :
  index_of y classes = None <-> ~ In y classes.
Proof.
  induction classes as [ | c rest IH]; simpl; [tauto | ].
  destruct (String.eqb_spec c y) as [-> | Hne].
  - split; [discriminate | tauto].
  - destruct (index_of y rest) as [k | ].
    + split; [discriminate | ]. intros Hnot. exfalso. apply Hnot. right.
      destruct (in_dec string_dec y rest) as [Hin | Hnin]; [exact Hin | ].
      apply IH in Hnin. discriminate.
    + split; [ | reflexivity]. intros _ [E | Hin]; [contradiction | ].
      exact (proj1 IH eq_refl Hin).
Qed.

(** A label outside the vocabulary is refused. *)
Lemma transform_unseen (enc : LabelEncoder) (y : string) :
  ~ In y (classes_ enc) -> transform enc y = Raise unseen_labels.
Proof.
  intros Hy. unfold transform. now rewrite (proj2 (index_of_none _ _) Hy).
Qed.

(** A label that is encoded belongs to the vocabulary, at the position of
    its code. *)
Lemma transform_ok (enc : LabelEncoder) (y : string) (code : Z) :
  transform enc y = Ok code ->
  In y (classes_ enc) /\ nth_error (classes_ enc) (Z.to_nat code) = Some y.
Proof.
  unfold transform. destruct (index_of y (classes_ enc)) as [i | ] eqn:E;
    [ | discriminate].
  intros Hcode. inversion Hcode. rewrite Nat2Z.id.
  apply index_of_some in E. split; [ | exact E].
  eapply nth_error_In. exact E.
Qed.

Lemma inverse_transform_ok (enc : LabelEncoder) (code : Z) (label : string) :
  inverse_transform enc code = Ok label -> decodes enc code label.
Proof.
  unfold inverse_transform, decodes, in_vocabulary.
  destruct (Z.leb_spec 0 code); simpl; [ | discriminate].
  destruct (Z.ltb_spec code (Z.of_nat (List.length (classes_ enc))));
    [ | discriminate].
  destruct (nth_error (classes_ enc) (Z.to_nat code)); [ | discriminate].
  intros E. inversion E. split; [lia | reflexivity].
Qed.

(** The only exception of [inverse_transform]. *)
Lemma inverse_transform_raise (enc : LabelEncoder) (code : Z) (e : exn) :
  inverse_transform enc code = Raise e -> e = unseen_labels.
Proof.
  unfold inverse_transform.
  destruct ((0 <=? code) && (code <? Z.of_nat (List.length (classes_ enc))))%Z;
    [destruct (nth_error (classes_ enc) (Z.to_nat code)) | ];
    intros E; inversion E; reflexivity.
Qed.

Lemma ml_predict_route_loaded (M : MLModels)
  (body_enc title_enc equipment_enc level_enc : LabelEncoder)
  (tm em lm : Classifier) (bodypart : string) :
  loaded M body_enc title_enc equipment_enc level_enc tm em lm ->
  ml_predict_route M bodypart =
    (encoded <- transform body_enc bodypart ;;
     title_label <- inverse_transform title_enc (predict tm encoded) ;;
     equipment_label <- inverse_transform equipment_enc (predict em encoded) ;;
     level_label <- inverse_transform level_enc (predict lm encoded) ;;
     Ok {| title := title_label; equipment := equipment_label;
           level := level_label |}).
Proof.
  intros [(encoders & Henc & Hb & Ht & He & Hl) Htm Hem Hlm].
  unfold ml_predict_route, subscript, dict_get, call_predict.
  rewrite Henc, Hb, Ht, He, Hl, Htm, Hem, Hlm. simpl.
  destruct (transform body_enc bodypart); reflexivity.
Qed.

(** C9. A body part that is not in the vocabulary of the BodyPart encoder
    makes [ml_predict_route] raise the encoder's [ValueError]; no prediction
    is made up. Whenever the route does return, the body part is in the
    vocabulary and each returned label is the entry of its encoder at the
    code its classifier predicted. With everything loaded and the body part
    encoded, a predicted code outside the vocabulary of its encoder makes the
    route raise as well. *)
Theorem ml_predict_route_unknown_category (M : MLModels) (bodypart : string) :
  (forall encoders body_enc,
     label_encoders M = Some encoders ->
     dict_find encoders "BodyPart" = Some body_enc ->
     ~ In bodypart (classes_ body_enc) ->
     ml_predict_route M bodypart = Raise unseen_labels) /\
  (forall data,
     ml_predict_route M bodypart = Ok data ->
     exists body_enc title_enc equipment_enc level_enc tm em lm code,
       loaded M body_enc title_enc equipment_enc level_enc tm em lm /\
       In bodypart (classes_ body_enc) /\
       transform body_enc bodypart = Ok code /\
       decodes title_enc (predict tm code) (title data) /\
       decodes equipment_enc (predict em code) (equipment data) /\
       decodes level_enc (predict lm code) (level data)) /\
  (forall body_enc title_enc equipment_enc level_enc tm em lm code,
     loaded M body_enc title_enc equipment_enc level_enc tm em lm ->
     transform body_enc bodypart = Ok code ->
     ~ in_vocabulary title_enc (predict tm code) \/
     ~ in_vocabulary equipment_enc (predict em code) \/
     ~ in_vocabulary level_enc (predict lm code) ->
     ml_predict_route M bodypart = Raise unseen_labels).
Proof.
  split; [ | split].
  - intros encoders body_enc Henc Hbody Hunseen.
    unfold ml_predict_route, subscript, dict_get.
    rewrite Henc, Hbody. simpl. now rewrite (transform_unseen _ _ Hunseen).
  - intros data Hret. unfold ml_predict_route in Hret.
    apply bind_ok in Hret as (body_enc & Hbody & Hret).
    apply bind_ok in Hret as (code & Hcode & Hret).
    apply bind_ok in Hret as (tc & Htc & Hret).
    apply bind_ok in Hret as (ec & Hec & Hret).
    apply bind_ok in Hret as (lc & Hlc & Hret).
    apply bind_ok in Hret as (title_enc & Htitle & Hret).
    apply bind_ok in Hret as (tl & Htl & Hret).
    apply bind_ok in Hret as (equipment_enc & Hequipment & Hret).
    apply bind_ok in Hret as (el & Hel & Hret).
    apply bind_ok in Hret as (level_enc & Hlevel & Hret).
    apply bind_ok in Hret as (ll & Hll & Hret).
    inversion Hret; subst data; clear Hret. simpl.
    unfold subscript, dict_get in Hbody, Htitle, Hequipment, Hlevel.
    destruct (label_encoders M) as [encoders | ] eqn:Eenc; [ | discriminate].
    destruct (dict_find encoders "BodyPart") as [be | ] eqn:Eb; [ | discriminate].
    destruct (dict_find encoders "Title") as [te | ] eqn:Et; [ | discriminate].
    destruct (dict_find encoders "Equipment") as [ee | ] eqn:Ee; [ | discriminate].
    destruct (dict_find encoders "Level") as [le | ] eqn:El; [ | discriminate].
    inversion Hbody; inversion Htitle; inversion Hequipment; inversion Hlevel.
    subst be te ee le.
    unfold call_predict in Htc, Hec, Hlc.
    destruct (title_model M) as [tm | ] eqn:Etm; [ | discriminate].
    destruct (equipment_model M) as [em | ] eqn:Eem; [ | discriminate].
    destruct (level_model M) as [lm | ] eqn:Elm; [ | discriminate].
    inversion Htc; inversion Hec; inversion Hlc. subst tc ec lc.
    exists body_enc, title_enc, equipment_enc, level_enc, tm, em, lm, code.
    split.
    { constructor; try assumption. exists encoders. repeat split; assumption. }
    split; [exact (proj1 (transform_ok _ _ _ Hcode)) | ].
    split; [exact Hcode | ].
    split; [ | split]; apply inverse_transform_ok; assumption.
  - intros body_enc title_enc equipment_enc level_enc tm em lm code
      Hloaded Hcode Hbad.
    rewrite (ml_predict_route_loaded _ _ _ _ _ _ _ _ bodypart Hloaded).
    rewrite Hcode. simpl.
    destruct (inverse_transform title_enc (predict tm code)) as [tl | e] eqn:Et;
      simpl; [ | now rewrite (inverse_transform_raise _ _ _ Et)].
    destruct (inverse_transform equipment_enc (predict em code)) as [el | e] eqn:Ee;
      simpl; [ | now rewrite (inverse_transform_raise _ _ _ Ee)].
    destruct (inverse_transform level_enc (predict lm code)) as [ll | e] eqn:El;
      simpl; [ | now rewrite (inverse_transform_raise _ _ _ El)].
    apply inverse_transform_ok in Et, Ee, El.
    exfalso. destruct Et, Ee, El. tauto.
Qed.

(** "Unicorn" is not a body part of the vocabulary: the route raises. *)
Lemma ml_predict_route_unknown_category_witness :
  ml_predict_route demo_models "Unicorn" = Raise unseen_labels.
Proof.
  destruct (ml_predict_route_unknown_category demo_models "Unicorn")
    as (Hunseen & _).
  apply (Hunseen demo_encoders {| classes_ := ["Back"; "Chest"; "Legs"] |});
    try reflexivity.
  simpl. intuition discriminate.
Defined.

(** "Chest" is in the vocabulary and is decoded through the three
    classifiers. *)
Example ml_predict_route_chest :
  ml_predict_route demo_models "Chest" =
    Ok {| title := "Deadlift"; equipment := "Barbell"; level := "Intermediate" |}.
Proof. reflexivity. Qed.

(* ================================================================= *)
(** * Further properties of the fitness functions *)

(** ** More facts on binary64 values *)

Lemma SFleb_ltb_trans (a b c : spec_float) :
  SFleb a b = true -> SFltb b c = true -> SFltb a c = true.
Proof. FloatOrder.sf_cases. Qed.

Lemma leb_ltb_trans (x y z : float) :
  (x <=? y)%float = true -> (y <? z)%float = true -> (x <? z)%float = true.
Proof. rewrite leb_spec, !ltb_spec. apply SFleb_ltb_trans. Qed.

(** There is one not-a-number. *)
Lemma is_nan_true (x : float) : is_nan x = true -> x = nan.
Proof.
  intros Hx. rewrite <- (SF2Prim_Prim2SF x).
  destruct (Prim2SF x) eqn:E; try reflexivity;
    assert (Hno : is_nan x = false)
      by (apply FloatOrder.is_nan_false_iff; rewrite E; discriminate);
    congruence.
Qed.

Lemma add_nan_l (y : float) : (nan + y)%float = nan.
Proof.
  apply Prim2SF_inj. rewrite add_spec. reflexivity.
Qed.

(* ================================================================= *)
(** ** The plan grows with the bmi *)

(** The number of the bucket of [bmi], read off the [if]/[elif] chain. *)
Definition bucket (bmi : float) : Z :=
  if (bmi <? 16)%float then 1
  else if (bmi <? 17)%float then 2
  else if (bmi <? 18.5)%float then 3
  else if (bmi <? 25)%float then 4
  else if (bmi <? 30)%float then 5
  else if (bmi <? 35)%float then 6
  else 7.

Lemma get_plan_bucket (bmi : float) : get_plan (bmi_case_of bmi) = Ok (bucket bmi).
Proof.
  unfold bmi_case_of, bucket.
  repeat match goal with
  | |- context [if ?b then _ else _] => destruct b
  end; reflexivity.
Qed.

(** A bmi below a threshold pulls every smaller bmi below all thresholds
    that are not smaller. *)
Ltac below_threshold :=
  match goal with
  | Hle : (?b1 <=? ?b2)%float = true,
    Hlt : (?b2 <? ?t)%float = true,
    Hge : (?b1 <? ?s)%float = false |- _ =>
      exfalso;
      assert ((b1 <? s)%float = true)
        by (apply (FloatOrder.ltb_leb_trans b1 t s);
            [exact (leb_ltb_trans b1 b2 t Hle Hlt) | reflexivity]);
      congruence
  end.

Lemma bucket_monotone (bmi1 bmi2 : float) :
  (bmi1 <=? bmi2)%float = true -> (bucket bmi1 <= bucket bmi2)%Z.
Proof.
  intros Hle. unfold bucket.
  destruct (bmi2 <? 16)%float eqn:A16; destruct (bmi2 <? 17)%float eqn:A17;
  destruct (bmi2 <? 18.5)%float eqn:A18; destruct (bmi2 <? 25)%float eqn:A25;
  destruct (bmi2 <? 30)%float eqn:A30; destruct (bmi2 <? 35)%float eqn:A35;
  destruct (bmi1 <? 16)%float eqn:B16; try lia;
  destruct (bmi1 <? 17)%float eqn:B17; try lia;
  destruct (bmi1 <? 18.5)%float eqn:B18; try lia;
  destruct (bmi1 <? 25)%float eqn:B25; try lia;
  destruct (bmi1 <? 30)%float eqn:B30; try lia;
  destruct (bmi1 <? 35)%float eqn:B35; try lia;
  below_threshold.
Qed.

(** X1. The plan never decreases when the bmi increases: if bmi1 <= bmi2,
    the plan of the label of bmi1 is at most the plan of the label of
    bmi2. *)
Theorem plan_monotone_in_bmi (bmi1 bmi2 : float) (p1 p2 : Z) :
  (bmi1 <=? bmi2)%float = true ->
  get_plan (bmi_case_of bmi1) = Ok p1 ->
  get_plan (bmi_case_of bmi2) = Ok p2 ->
  (p1 <= p2)%Z.
Proof.
  intros Hle H1 H2. rewrite get_plan_bucket in H1, H2.
  inversion H1; inversion H2; subst. now apply bucket_monotone.
Qed.

(** A bmi of 16.9 and one of 31: plans 2 and 6. *)
Lemma plan_monotone_in_bmi_witness : (2 <= 6)%Z.
Proof.
  apply (plan_monotone_in_bmi 16.9 31 2 6); reflexivity.
Defined.

(* ================================================================= *)
(** ** A bmi that is not a number *)

(** X2. A bmi that is not a number (from a weight or height typed as nan,
    or from inf/inf) fails every comparison of the chain: the label is
    "severe obese" and the plan 7; the body-fat estimate is clamped to 0 and
    classified "Obese". *)
Theorem nan_bmi_last_bucket (bmi : float) (gender : string) (age : Z) :
  is_nan bmi = true ->
  (Z.abs age < PyFloat.int_bound)%Z ->
  bmi_case_of bmi = "severe obese" /\
  get_plan (bmi_case_of bmi) = Ok 7%Z /\
  estimate_bfp bmi gender age = Ok 0%float /\
  bfp_case 0 gender = "Obese".
Proof.
  intros Hnan Hage. apply is_nan_true in Hnan. subst bmi.
  split; [reflexivity | ]. split; [reflexivity | ].
  split.
  - unfold estimate_bfp, bfp_linear. rewrite (of_int_small age Hage).
    destruct (gender =? "male"); simpl;
      change (1.20 * nan)%float with nan; rewrite add_nan_l; reflexivity.
  - unfold bfp_case, bfp_table. destruct (gender =? "male"); reflexivity.
Qed.

(** An infinite weight over an infinite height. *)
Lemma nan_bmi_last_bucket_witness :
  calculate_bmi_case infinity infinity = Ok (nan, "severe obese") /\
  estimate_bfp nan "female" 40 = Ok 0%float.
Proof.
  split; [reflexivity | ].
  apply (nan_bmi_last_bucket nan "female" 40); reflexivity.
Defined.

(* ================================================================= *)
(** ** The body-fat tables *)

(** What the scan returns: the label of an entry that contains [bfp], or
    the fallback when no entry does. *)
Lemma bfp_scan_spec (items : dict (float * float)) (bfp : float) :
  (exists c band,
      In (c, band) items /\ in_range bfp band = true /\ bfp_scan items bfp = c) \/
  (Forall (outside bfp) items /\ bfp_scan items bfp = "Obese").
Proof.
  induction items as [ | [c band] rest IH]; simpl.
  - right. split; [constructor | reflexivity].
  - destruct (in_range bfp band) eqn:E.
    + left. exists c, band. repeat split; [now left | exact E].
    + destruct IH as [(c' & band' & Hin & Hr & Hs) | [Hout Hs]].
      * left. exists c', band'. repeat split; [now right | exact Hr | exact Hs].
      * right. split; [ | exact Hs]. constructor; [exact E | exact Hout].
Qed.

(** Two ranges with a gap between them hold no common value. *)
Lemma ranges_apart (bfp lo1 hi1 lo2 hi2 : float) :
  (hi1 <? lo2)%float = true ->
  in_range bfp (lo1, hi1) = true -> in_range bfp (lo2, hi2) = true -> False.
Proof.
  unfold in_range. intros Hgap H1 H2.
  apply andb_true_iff in H1 as [_ H1]. apply andb_true_iff in H2 as [H2 _].
  exact (FloatOrder.ltb_leb_absurd _ _ _ Hgap H2 H1).
Qed.

(** The ranges of a table are pairwise disjoint. *)
Lemma bfp_table_disjoint (bfp : float) (gender : string)
  (e1 e2 : string * (float * float)) :
  In e1 (bfp_table gender) -> In e2 (bfp_table gender) ->
  in_range bfp (snd e1) = true -> in_range bfp (snd e2) = true ->
  e1 = e2.
Proof.
  unfold bfp_table, BFP_STANDARDS_MALE, BFP_STANDARDS_FEMALE.
  destruct (gender =? "male"); simpl; intros H1 H2 R1 R2;
    repeat (destruct H1 as [<- | H1]; [ | ]); try contradiction;
    repeat (destruct H2 as [<- | H2]; [ | ]); try contradiction;
    try reflexivity; cbn [snd] in R1, R2; exfalso;
    first [ refine (ranges_apart _ _ _ _ _ _ R1 R2); reflexivity
          | refine (ranges_apart _ _ _ _ _ _ R2 R1); reflexivity ].
Qed.

(** X3. The ranges of each table are pairwise disjoint, so the order in
    which [bfp_case] walks the table does not matter: scanning any
    rearrangement of the table gives the same class. *)
Theorem bfp_case_order_independent (bfp : float) (gender : string)
  (items : dict (float * float)) :
  Permutation items (bfp_table gender) ->
  bfp_scan items bfp = bfp_case bfp gender.
Proof.
  intros Hperm. unfold bfp_case.
  destruct (bfp_scan_spec items bfp)
    as [(c1 & b1 & Hin1 & Hr1 & ->) | [Hout1 ->]];
  destruct (bfp_scan_spec (bfp_table gender) bfp)
    as [(c2 & b2 & Hin2 & Hr2 & ->) | [Hout2 ->]]; try reflexivity.
  - apply (Permutation_in _ Hperm) in Hin1.
    pose proof (bfp_table_disjoint bfp gender _ _ Hin1 Hin2 Hr1 Hr2) as E.
    now inversion E.
  - apply (Permutation_in _ Hperm) in Hin1.
    unfold outside in Hout2. rewrite Forall_forall in Hout2.
    apply Hout2 in Hin1. simpl in Hin1. congruence.
  - apply (Permutation_in _ (Permutation_sym Hperm)) in Hin2.
    unfold outside in Hout1. rewrite Forall_forall in Hout1.
    apply Hout1 in Hin2. simpl in Hin2. congruence.
Qed.

(** The female table walked backwards. *)
Lemma bfp_case_order_independent_witness :
  bfp_scan (rev BFP_STANDARDS_FEMALE) 22.5 = "Fitness".
Proof.
  rewrite (bfp_case_order_independent 22.5 "female" (rev BFP_STANDARDS_FEMALE)).
  - reflexivity.
  - apply Permutation_sym, Permutation_rev.
Defined.

(** The whole numbers from [first] on, [count] of them. *)
Definition whole_numbers (first : Z) (count : nat) : list Z :=
  map (fun k => (first + Z.of_nat k)%Z) (seq 0 count).

Lemma whole_numbers_In (first : Z) (count : nat) (n : Z) :
  (first <= n < first + Z.of_nat count)%Z -> In n (whole_numbers first count).
Proof.
  intros Hn. unfold whole_numbers. apply in_map_iff.
  exists (Z.to_nat (n - first)). split; [lia | ].
  apply in_seq. lia.
Qed.

(** Some entry of the table contains the whole number [n], and the scan
    returns its label. *)
Definition whole_matched (gender : string) (n : Z) : bool :=
  existsb
    (fun entry =>
       in_range (PyFloat.of_Z n) (snd entry)
       && (bfp_case (PyFloat.of_Z n) gender =? fst entry))
    (bfp_table gender).

(** X4. On whole percentages the tables leave no hole: every whole number
    from 2 to 100 lies in a range of the male table, every whole number from
    10 to 100 in a range of the table used for any other gender, and
    [bfp_case] returns the label of that range. *)
Theorem bfp_case_whole_percentages (gender : string) (n : Z) :
  ((if (gender =? "male")%string then 2 else 10) <= n <= 100)%Z ->
  exists c band,
    In (c, band) (bfp_table gender) /\
    in_range (PyFloat.of_Z n) band = true /\
    bfp_case (PyFloat.of_Z n) gender = c.
Proof.
  intros Hn.
  assert (Hmatched : whole_matched gender n = true).
  { unfold whole_matched, bfp_case, bfp_table in *.
    destruct (gender =? "male").
    - assert (Hall : forallb (whole_matched "male") (whole_numbers 2 99) = true)
        by (vm_compute; reflexivity).
      rewrite forallb_forall in Hall.
      apply (Hall n). apply whole_numbers_In. lia.
    - assert (Hall : forallb (whole_matched "female") (whole_numbers 10 91) = true)
        by (vm_compute; reflexivity).
      rewrite forallb_forall in Hall.
      apply (Hall n). apply whole_numbers_In. lia. }
  unfold whole_matched in Hmatched. apply existsb_exists in Hmatched.
  destruct Hmatched as ([c band] & Hin & Hboth).
  apply andb_true_iff in Hboth as [Hr Hc]. apply String.eqb_eq in Hc.
  exists c, band. repeat split; assumption.
Qed.

(** 13 per cent for a male: the range 6..13, "Athletes". *)
Lemma bfp_case_whole_percentages_witness : bfp_case 13 "male" = "Athletes".
Proof.
  destruct (bfp_case_whole_percentages "male" 13)
    as (c & band & Hin & Hr & Hc); [simpl; lia | ].
  exact eq_refl.
Defined.

(* ================================================================= *)
(** ** A label that is no key of the plan dictionary *)

(** X5. [get_plan] raises [KeyError] with the offending label on every
    string that is not one of its seven keys. *)
Theorem get_plan_missing_key (c : string) :
  ~ In c bmi_cases -> get_plan c = Raise (KeyError c).
Proof.
  intros Hc. unfold get_plan, dict_get, mapping. cbn [dict_find].
  repeat match goal with
  | |- context [if ?k =? c then _ else _] =>
      destruct (String.eqb_spec k c) as [E | _];
        [exfalso; apply Hc; rewrite <- E; simpl; tauto | ]
  end.
  reflexivity.
Qed.

(** The capitalised "Normal" is no key. *)
Lemma get_plan_missing_key_witness :
  get_plan "Normal" = Raise (KeyError "Normal").
Proof.
  apply get_plan_missing_key. simpl. intuition discriminate.
Defined.

(* ================================================================= *)
(** * Further properties of the recommender and of the dataset load *)

Lemma plan_filter_low (plan : Z) (r : ExerciseRecord) :
  In plan [1; 2; 3]%Z -> plan_filter plan r = plan_filter 1 r.
Proof.
  simpl. intros [<- | [<- | [<- | []]]]; reflexivity.
Qed.

Lemma plan_filter_high (plan : Z) (r : ExerciseRecord) :
  In plan [5; 6]%Z -> plan_filter plan r = plan_filter 5 r.
Proof.
  simpl. intros [<- | [<- | []]]; reflexivity.
Qed.

Lemma plan_filter_other (plan : Z) (r : ExerciseRecord) :
  ~ In plan [1; 2; 3; 4; 5; 6]%Z -> plan_filter plan r = plan_filter 7 r.
Proof.
  intros Hplan. unfold plan_filter.
  destruct (int_in plan [1; 2; 3]%Z) eqn:E123.
  { apply int_in_In in E123. exfalso. apply Hplan. simpl in *. tauto. }
  destruct (Z.eqb_spec plan 4) as [E4 | _].
  { exfalso. apply Hplan. simpl. lia. }
  destruct (int_in plan [5; 6]%Z) eqn:E56.
  { apply int_in_In in E56. exfalso. apply Hplan. simpl in *. tauto. }
  reflexivity.
Qed.

Lemma recommend_exercises_ext `{SortValues} (df_mega : option DataFrame)
  (plan plan' : Z) :
  (forall r, plan_filter plan r = plan_filter plan' r) ->
  recommend_exercises df_mega plan = recommend_exercises df_mega plan'.
Proof.
  intros Hsame. unfold recommend_exercises.
  destruct df_mega as [df | ]; [ | reflexivity].
  now rewrite (filter_ext _ _ Hsame).
Qed.

(** X6. The seven plans give only four recommendation lists: plans 1, 2
    and 3 recommend the same rows, plans 5 and 6 recommend the same rows,
    and every value outside 1..6 recommends what plan 7 does. *)
Theorem recommend_exercises_plan_groups `{SortValues}
  (df_mega : option DataFrame) (plan : Z) :
  (In plan [1; 2; 3]%Z ->
     recommend_exercises df_mega plan = recommend_exercises df_mega 1) /\
  (In plan [5; 6]%Z ->
     recommend_exercises df_mega plan = recommend_exercises df_mega 5) /\
  (~ In plan [1; 2; 3; 4; 5; 6]%Z ->
     recommend_exercises df_mega plan = recommend_exercises df_mega 7).
Proof.
  split; [ | split]; intros Hplan; apply recommend_exercises_ext; intros r.
  - now apply plan_filter_low.
  - now apply plan_filter_high.
  - now apply plan_filter_other.
Qed.

(** Plans 3 and 1, and plans 0 and 7, on a three-row catalog. *)
Lemma recommend_exercises_plan_groups_witness :
  @recommend_exercises stable_sort
    (Some [jumping_jacks; bench_press; deadlift]) 3
  = @recommend_exercises stable_sort
    (Some [jumping_jacks; bench_press; deadlift]) 1 /\
  @recommend_exercises stable_sort
    (Some [jumping_jacks; bench_press; deadlift]) 0
  = [jumping_jacks].
Proof.
  split.
  - apply (@recommend_exercises_plan_groups stable_sort). simpl. tauto.
  - rewrite (proj2 (proj2 (@recommend_exercises_plan_groups stable_sort
               (Some [jumping_jacks; bench_press; deadlift]) 0))).
    + reflexivity.
    + simpl. lia.
Defined.

(** X7. The number of recommended rows is the number of catalog rows that
    pass the filter of the plan, capped at 10; when at most 10 rows pass,
    the recommendation is a rearrangement of exactly those rows. *)
Theorem recommend_exercises_count `{SortValues} (df : DataFrame) (plan : Z) :
  List.length (recommend_exercises (Some df) plan)
    = Nat.min 10 (List.length (filter (plan_filter plan) df)) /\
  ((List.length (filter (plan_filter plan) df) <= 10)%nat ->
     Permutation (recommend_exercises (Some df) plan)
       (filter (plan_filter plan) df)).
Proof.
  unfold recommend_exercises.
  pose proof (sort_values_perm (filter (plan_filter plan) df)) as Hperm.
  split.
  - rewrite length_firstn. now rewrite (Permutation_length Hperm).
  - intros Hfew. rewrite firstn_all2; [exact Hperm | ].
    now rewrite (Permutation_length Hperm).
Qed.

(** Two of three rows pass the filter of plan 4: both are returned. *)
Lemma recommend_exercises_count_witness :
  Permutation
    (@recommend_exercises stable_sort
       (Some [jumping_jacks; bench_press; deadlift]) 4)
    [bench_press; deadlift].
Proof.
  apply (proj2 (@recommend_exercises_count stable_sort
                  [jumping_jacks; bench_press; deadlift] 4)).
  simpl. lia.
Defined.

Lemma StronglySorted_app_order {A : Type} (R : A -> A -> Prop) (l1 l2 : list A) :
  StronglySorted R (l1 ++ l2)%list ->
  forall a b, In a l1 -> In b l2 -> R a b.
Proof.
  induction l1 as [ | x rest IH]; simpl; intros Hs a b Ha Hb; [contradiction | ].
  inversion Hs as [ | ? ? Hrest Hx]; subst.
  destruct Ha as [<- | Ha].
  - rewrite Forall_forall in Hx. apply Hx. apply in_or_app. now right.
  - now apply IH.
Qed.

(** X8. The recommended rows are the best rated among the rows that pass
    the filter: the passing rows split into the recommendation and a rest,
    and no row of the rest is rated above a recommended row (rows without a
    rating count as lowest). *)
Theorem recommend_exercises_top_rated `{SortValues} (df : DataFrame) (plan : Z) :
  exists rest,
    Permutation (recommend_exercises (Some df) plan ++ rest)%list
      (filter (plan_filter plan) df) /\
    (forall a b,
       In a (recommend_exercises (Some df) plan) -> In b rest ->
       rating_desc a b) /\
    (rated df ->
     forall a b,
       In a (recommend_exercises (Some df) plan) -> In b rest ->
       (Rating b <=? Rating a)%float = true).
Proof.
  unfold recommend_exercises.
  set (sorted := sort_values_desc (filter (plan_filter plan) df)).
  assert (Horder : forall a b,
             In a (firstn 10 sorted) -> In b (skipn 10 sorted) ->
             rating_desc a b).
  { apply StronglySorted_app_order. rewrite firstn_skipn.
    apply sort_values_sorted. }
  exists (skipn 10 sorted). split; [ | split].
  - rewrite firstn_skipn. apply sort_values_perm.
  - exact Horder.
  - intros Hrated a b Ha Hb. apply rating_desc_leb; [ | now apply Horder].
    assert (Hin : In b (filter (plan_filter plan) df)).
    { apply (Permutation_in b (sort_values_perm _)).
      rewrite <- (firstn_skipn 10). apply in_or_app. now right. }
    apply filter_In in Hin as [Hin _].
    unfold rated in Hrated. rewrite Forall_forall in Hrated. now apply Hrated.
Qed.

(* ================================================================= *)
(** ** The dataset load *)

(** [s] contains an underscore. *)
Fixpoint has_underscore (s : string) : bool :=
  match s with
  | EmptyString => false
  | String c rest => Ascii.eqb c "_"%char || has_underscore rest
  end.

(** No text column of the row contains an underscore. *)
Definition underscore_free (r : ExerciseRecord) : Prop :=
  has_underscore (Title r) = false /\
  has_underscore (Type_ r) = false /\
  has_underscore (BodyPart r) = false /\
  has_underscore (Equipment r) = false /\
  has_underscore (Level r) = false.

Lemma replace_underscore_free (s : string) :
  has_underscore (replace_underscore s) = false.
Proof.
  induction s as [ | c rest IH]; simpl; [reflexivity | ].
  rewrite IH. destruct (Ascii.eqb c "_"%char) eqn:E; [reflexivity | ].
  now rewrite E.
Qed.

Lemma replace_underscore_fixed (s : string) :
  has_underscore s = false -> replace_underscore s = s.
Proof.
  induction s as [ | c rest IH]; simpl; [reflexivity | ].
  intros H. apply orb_false_iff in H as [Hc Hrest].
  now rewrite Hc, IH.
Qed.

Lemma clean_row_free (r : ExerciseRecord) : underscore_free (clean_row r).
Proof.
  unfold underscore_free, clean_row. simpl.
  repeat split; apply replace_underscore_free.
Qed.

Lemma clean_row_fixed (r : ExerciseRecord) :
  underscore_free r -> clean_row r = r.
Proof.
  intros (Ht & Hty & Hb & He & Hl). destruct r. unfold clean_row. simpl in *.
  now rewrite !replace_underscore_fixed.
Qed.

(** A catalog that is already clean is left as it is. *)
Lemma load_dataset_fixed (df : DataFrame) :
  rated df -> Forall underscore_free df -> load_dataset (Some df) = Some df.
Proof.
  intros Hrated Hfree. unfold rated in Hrated.
  assert (E : map clean_row (filter (fun r => negb (is_nan (Rating r))) df) = df).
  { induction df as [ | r rest IH]; [reflexivity | ].
    inversion Hrated as [ | ? ? Hr Hrest]; subst.
    inversion Hfree as [ | ? ? Hf Hfrest]; subst.
    simpl. rewrite Hr. simpl. rewrite (clean_row_fixed r Hf).
    f_equal. now apply IH. }
  unfold load_dataset. now rewrite E.
Qed.

(** On a file that has the [Rating] column the load block is
    [load_dataset]. *)
Lemma load_block_with_rating (rows : DataFrame) :
  load_dataset (Some rows) = Some
    (map clean_row (filter (fun r => negb (is_nan (Rating r))) rows)) /\
  load_block (Some (WithRating rows)) = CatalogLoaded
    (map clean_row (filter (fun r => negb (is_nan (Rating r))) rows)).
Proof. split; reflexivity. Qed.

(** X9. The three outcomes of the load block. [df_mega] is [None] exactly
    when [read_csv] raised. On a file without the [Rating] column [dropna]
    raises and [df_mega] stays the frame as read, neither [None] nor
    cleaned. On a file with the column every step runs: the catalog holds
    only rows with a rating and without an underscore in any text column, it
    has no more rows than the file, and loading it again changes nothing. *)
Theorem load_block_outcomes (csv : option CsvFrame) :
  (load_block csv = CatalogNone <-> csv = None) /\
  (forall rows, csv = Some (WithoutRating rows) ->
     load_block csv = CatalogRaw rows) /\
  (forall rows, csv = Some (WithRating rows) ->
     exists df,
       load_block csv = CatalogLoaded df /\
       rated df /\
       Forall underscore_free df /\
       (List.length df <= List.length rows)%nat /\
       load_block (Some (WithRating df)) = CatalogLoaded df).
Proof.
  split; [ | split].
  - destruct csv as [[rows | rows] | ]; simpl; split; intros E;
      try discriminate E; reflexivity.
  - intros rows ->. reflexivity.
  - intros rows ->. eexists. split; [reflexivity | ].
    assert (Hrated : rated
              (map clean_row (filter (fun r => negb (is_nan (Rating r))) rows)))
      by exact (load_block_rated (Some (WithRating rows)) _ eq_refl).
    assert (Hfree : Forall underscore_free
              (map clean_row (filter (fun r => negb (is_nan (Rating r))) rows))).
    { rewrite Forall_map. rewrite Forall_forall. intros r _.
      apply clean_row_free. }
    split; [exact Hrated | ]. split; [exact Hfree | ]. split.
    + rewrite length_map. apply filter_length_le.
    + pose proof (load_dataset_fixed _ Hrated Hfree) as Hfixed.
      simpl in Hfixed. injection Hfixed as Hfixed.
      simpl. now rewrite Hfixed.
Qed.

Definition raw_push_up : ExerciseRecord :=
  {| Title := "Push_Up"; Type_ := "Strength"; BodyPart := "Chest";
     Equipment := "Body_Only"; Level := "Beginner"; Rating := 8.5 |}.

Definition raw_unrated : ExerciseRecord :=
  {| Title := "Plank"; Type_ := "Strength"; BodyPart := "Abdominals";
     Equipment := "Body_Only"; Level := "Beginner"; Rating := nan |}.

(** A file of two rows, one without a rating: one cleaned row remains. The
    file [unrated_file], which has no [Rating] column, stays as read, with
    its underscores. *)
Lemma load_block_outcomes_witness :
  load_block (Some (WithRating [raw_push_up; raw_unrated]))
    = CatalogLoaded
        [ {| Title := "Push Up"; Type_ := "Strength"; BodyPart := "Chest";
             Equipment := "Body Only"; Level := "Beginner";
             Rating := 8.5 |} ] /\
  load_block (Some (WithoutRating unrated_file)) = CatalogRaw unrated_file.
Proof.
  split; [reflexivity | ].
  apply (load_block_outcomes (Some (WithoutRating unrated_file))).
  reflexivity.
Defined.

(* ================================================================= *)
(** ** What the assessment depends on *)

(** X10. The bmi, its label, the plan and the recommended exercises of
    [fitness_route] depend on weight and height only: two requests with the
    same weight and height get the same ones, whatever their ages and
    genders are. *)
Theorem fitness_route_plan_ignores_age_gender `{SortValues}
  (round : float -> Z -> float) (df_mega : option DataFrame)
  (weight height : float) (age1 age2 : Z) (gender1 gender2 : string)
  (f1 f2 : Fitness.t) :
  fitness_route round df_mega weight height age1 gender1 = Ok f1 ->
  fitness_route round df_mega weight height age2 gender2 = Ok f2 ->
  Fitness.bmi f1 = Fitness.bmi f2 /\
  Fitness.bmi_case f1 = Fitness.bmi_case f2 /\
  Fitness.plan f1 = Fitness.plan f2 /\
  Fitness.exercises f1 = Fitness.exercises f2.
Proof.
  unfold fitness_route.
  destruct (calculate_bmi_case weight height) as [[bmi case] | e]; simpl;
    [ | discriminate].
  destruct (estimate_bfp bmi gender1 age1) as [bfp1 | e]; simpl; [ | discriminate].
  destruct (estimate_bfp bmi gender2 age2) as [bfp2 | e]; simpl; [ | discriminate].
  destruct (get_plan case) as [plan | e]; simpl; [ | discriminate].
  intros E1 E2. inversion E1; inversion E2; subst. simpl. repeat split.
Qed.

(** 70 kg and 1.75 m, as a male of 30 and as a female of 62. *)
Lemma fitness_route_plan_ignores_age_gender_witness :
  exists f1 f2,
    @fitness_route stable_sort (fun x _ => x) None 70 1.75 30 "male" = Ok f1 /\
    @fitness_route stable_sort (fun x _ => x) None 70 1.75 62 "female" = Ok f2 /\
    Fitness.plan f1 = Fitness.plan f2 /\
    Fitness.bfp_case f1 <> Fitness.bfp_case f2.
Proof.
  eexists _, _. split; [reflexivity | ]. split; [reflexivity | ].
  split.
  - eapply (@fitness_route_plan_ignores_age_gender stable_sort (fun x _ => x)
              None 70 1.75 30 62 "male" "female")%float; reflexivity.
  - discriminate.
Defined.

(* ================================================================= *)
(** * The application: globals, model load and routes *)

(** ** Definitions *)

Definition no_models : MLModels :=
  {| label_encoders := None; title_model := None;
     equipment_model := None; level_model := None |}.

(** The model-loading block. Each argument is what the corresponding
    [pickle.load] delivers, [None] when it raises. The loads run in the
    order of the source inside one [try]: the first failure skips everything
    after it, and what was assigned before stays. [body_parts] is read last,
    from the BodyPart encoder; a missing key leaves it empty. *)
Definition load_models (encoders : option (dict LabelEncoder))
  (tm em lm : option Classifier) : MLModels * list string :=
  match encoders with
  | None => (no_models, [])
  | Some e =>
      match tm with
      | None =>
          ({| label_encoders := Some e; title_model := None;
              equipment_model := None; level_model := None |}, [])
      | Some t =>
          match em with
          | None =>
              ({| label_encoders := Some e; title_model := Some t;
                  equipment_model := None; level_model := None |}, [])
          | Some q =>
              match lm with
              | None =>
                  ({| label_encoders := Some e; title_model := Some t;
                      equipment_model := Some q; level_model := None |}, [])
              | Some l =>
                  ({| label_encoders := Some e; title_model := Some t;
                      equipment_model := Some q; level_model := Some l |},
                   match dict_find e "BodyPart" with
                   | Some enc => classes_ enc
                   | None => []
                   end)
              end
          end
      end
  end.

(** The module-level globals. *)
Module App.
Record t : Type := {
  df_mega : option DataFrame;
  models : MLModels;
  body_parts : list string;
  last_fitness : option Fitness.t
}.
End App.

(** The state after the module has been imported. *)
Definition startup (csv : option DataFrame)
  (encoders : option (dict LabelEncoder)) (tm em lm : option Classifier) : App.t :=
  {| App.df_mega := load_dataset csv;
     App.models := fst (load_models encoders tm em lm);
     App.body_parts := snd (load_models encoders tm em lm);
     App.last_fitness := None |}.

(** A value handed to a form field of the template: the text of a request
    argument, or the parsed number. *)
Inductive FormValue : Type :=
| FormText (s : string)
| FormFloat (x : float)
| FormInt (n : Z).

(** The keyword arguments of [render_template_string(HOME_HTML, ...)]. *)
Module Page.
Record t : Type := {
  fitness : option Fitness.t;
  ml : option MlData;
  body_parts : list string;
  form_weight : FormValue;
  form_height : FormValue;
  form_age : FormValue;
  form_gender : string
}.
End Page.

(** [request.args.get(k, default)] *)
Definition args_get (args : dict string) (k default : string) : string :=
  match dict_find args k with
  | Some v => v
  | None => default
  end.

Definition home (G : App.t) : Page.t :=
  {| Page.fitness := App.last_fitness G;
     Page.ml := None;
     Page.body_parts := App.body_parts G;
     Page.form_weight := FormText "";
     Page.form_height := FormText "";
     Page.form_age := FormText "";
     Page.form_gender := "male" |}.

Definition set_last_fitness (G : App.t) (f : Fitness.t) : App.t :=
  {| App.df_mega := App.df_mega G;
     App.models := App.models G;
     App.body_parts := App.body_parts G;
     App.last_fitness := Some f |}.

(** A request to one of the three routes: the posted form and, for
    /ml_predict, the query arguments. *)
Inductive Request : Type :=
| GetHome
| PostFitness (form : dict string)
| PostMlPredict (form args : dict string).

Section Views.

Context `{SortValues}.
Variable round : float -> Z -> float.

(** The builtins [float(s)] and [int(s)] on a string. *)
Variable py_float : string -> result float.
Variable py_int : string -> result Z.

(** The view of POST /fitness with its request: [request.form[k]] raises a
    [KeyError] on a missing field; [last_fitness] is assigned once the whole
    dictionary has been computed. *)
Definition fitness_request (G : App.t) (form : dict string)
  : result (App.t * Page.t) :=
  w <- dict_get form "weight" ;;
  weight <- py_float w ;;
  h <- dict_get form "height" ;;
  height <- py_float h ;;
  a <- dict_get form "age" ;;
  age <- py_int a ;;
  gender <- dict_get form "gender" ;;
  f <- fitness_route round (App.df_mega G) weight height age gender ;;
  Ok (set_last_fitness G f,
      {| Page.fitness := Some f;
         Page.ml := None;
         Page.body_parts := App.body_parts G;
         Page.form_weight := FormFloat weight;
         Page.form_height := FormFloat height;
         Page.form_age := FormInt age;
         Page.form_gender := gender |}).

(** The view of POST /ml_predict with its request. [if last_fitness:] holds
    exactly when an assessment is stored (the stored dictionary is never
    empty). *)
Definition ml_predict_request (G : App.t) (form args : dict string)
  : result Page.t :=
  bodypart <- dict_get form "bodypart" ;;
  ml_data <- ml_predict_route (App.models G) bodypart ;;
  let '(fw, fh, fa, fg) :=
    match App.last_fitness G with
    | Some _ =>
        (args_get args "weight" "", args_get args "height" "",
         args_get args "age" "", args_get args "gender" "male")
    | None => ("", "", "", "male")
    end in
  Ok {| Page.fitness := App.last_fitness G;
        Page.ml := Some ml_data;
        Page.body_parts := App.body_parts G;
        Page.form_weight := FormText fw;
        Page.form_height := FormText fh;
        Page.form_age := FormText fa;
        Page.form_gender := fg |}.

(** One request served: the globals afterwards and the page, or the
    exception that ends the request. A view that raises has assigned
    nothing. *)
Definition handle (G : App.t) (req : Request) : App.t * result Page.t :=
  match req with
  | GetHome => (G, Ok (home G))
  | PostFitness form =>
      match fitness_request G form with
      | Ok (G', page) => (G', Ok page)
      | Raise e => (G, Raise e)
      end
  | PostMlPredict form args => (G, ml_predict_request G form args)
  end.

(** The globals after a sequence of requests. *)
Definition run (G : App.t) (reqs : list Request) : App.t :=
  fold_left (fun g req => fst (handle g req)) reqs G.

(** What a stored assessment always satisfies. *)
Definition assessed (df_mega : option DataFrame) (f : Fitness.t) : Prop :=
  In (Fitness.bmi_case f) bmi_cases /\
  get_plan (Fitness.bmi_case f) = Ok (Fitness.plan f) /\
  (1 <= Fitness.plan f <= 7)%Z /\
  In (Fitness.bfp_case f)
    ["Essential"; "Athletes"; "Fitness"; "Acceptable"; "Obese"] /\
  Fitness.exercises f = recommend_exercises df_mega (Fitness.plan f) /\
  (List.length (Fitness.exercises f) <= 10)%nat.

End Views.

(** Sample parsers and requests for the concrete runs. *)
Definition demo_float (s : string) : result float :=
  if s =? "70" then Ok 70%float
  else if s =? "1.75" then Ok 1.75%float
  else Raise (ValueError "could not convert string to float").

Definition demo_int (s : string) : result Z :=
  if s =? "30" then Ok 30%Z
  else Raise (ValueError "invalid literal for int() with base 10").

Definition demo_form : dict string :=
  [ ("weight", "70"); ("height", "1.75"); ("age", "30"); ("gender", "male") ].

Definition demo_app : App.t :=
  {| App.df_mega := Some [jumping_jacks; bench_press; deadlift];
     App.models := demo_models;
     App.body_parts := ["Back"; "Chest"; "Legs"];
     App.last_fitness := None |}.

Definition is_fitness_post (req : Request) : bool :=
  match req with
  | PostFitness _ => true
  | _ => false
  end.

(* ================================================================= *)
(** ** Properties of the routes *)

Lemma dict_get_ok {V : Type} (d : dict V) (k : string) (v : V) :
  dict_get d k = Ok v -> dict_find d k = Some v.
Proof.
  unfold dict_get. destruct (dict_find d k); [ | discriminate].
  intros E. now inversion E.
Qed.

Lemma dict_get_missing {V : Type} (d : dict V) (k : string) :
  dict_find d k = None -> dict_get d k = Raise (KeyError k).
Proof. unfold dict_get. now intros ->. Qed.

(** [bfp_case] answers with one of the five class names. *)
Lemma bfp_case_label (bfp : float) (gender : string) :
  In (bfp_case bfp gender)
    ["Essential"; "Athletes"; "Fitness"; "Acceptable"; "Obese"].
Proof.
  unfold bfp_case.
  destruct (bfp_scan_spec (bfp_table gender) bfp)
    as [(c & band & Hin & _ & ->) | [_ ->]]; [ | simpl; tauto].
  unfold bfp_table, BFP_STANDARDS_MALE, BFP_STANDARDS_FEMALE in Hin.
  destruct (gender =? "male"); simpl in Hin;
    repeat (destruct Hin as [E | Hin]; [inversion E; simpl; tauto | ]);
    contradiction.
Qed.

Section ViewProperties.

Context `{SortValues}.
Variable round : float -> Z -> float.
Variable py_float : string -> result float.
Variable py_int : string -> result Z.

Lemma fitness_route_assessed (df_mega : option DataFrame)
  (weight height : float) (age : Z) (gender : string) (f : Fitness.t) :
  fitness_route round df_mega weight height age gender = Ok f ->
  assessed df_mega f.
Proof.
  unfold fitness_route, calculate_bmi_case. intros Hf.
  apply bind_ok in Hf as ([bmi case] & Hbmi & Hf).
  apply bind_ok in Hbmi as (bmi' & _ & Hbmi). inversion Hbmi; subst.
  apply bind_ok in Hf as (bfp & _ & Hf).
  apply bind_ok in Hf as (plan & Hplan & Hf).
  inversion Hf; subst. unfold assessed. simpl.
  split; [apply bmi_case_of_in | ]. split; [exact Hplan | ].
  split; [exact (get_plan_range _ _ Hplan) | ].
  split; [apply bfp_case_label | ]. split; [reflexivity | ].
  unfold recommend_exercises. destruct df_mega as [df | ].
  - apply firstn_le_length.
  - simpl. lia.
Qed.

(** A successful POST /fitness has read and parsed the four fields, and
    stores and shows the assessment of [fitness_route]. *)
Lemma fitness_request_ok (G G' : App.t) (form : dict string) (page : Page.t) :
  fitness_request round py_float py_int G form = Ok (G', page) ->
  exists w h a gender weight height age f,
    dict_find form "weight" = Some w /\ py_float w = Ok weight /\
    dict_find form "height" = Some h /\ py_float h = Ok height /\
    dict_find form "age" = Some a /\ py_int a = Ok age /\
    dict_find form "gender" = Some gender /\
    fitness_route round (App.df_mega G) weight height age gender = Ok f /\
    G' = set_last_fitness G f /\
    Page.fitness page = Some f.
Proof.
  unfold fitness_request. intros Hreq.
  apply bind_ok in Hreq as (w & Hw & Hreq).
  apply bind_ok in Hreq as (weight & Hweight & Hreq).
  apply bind_ok in Hreq as (h & Hh & Hreq).
  apply bind_ok in Hreq as (height & Hheight & Hreq).
  apply bind_ok in Hreq as (a & Ha & Hreq).
  apply bind_ok in Hreq as (age & Hage & Hreq).
  apply bind_ok in Hreq as (gender & Hgender & Hreq).
  apply bind_ok in Hreq as (f & Hf & Hreq).
  inversion Hreq; subst.
  exists w, h, a, gender, weight, height, age, f.
  repeat split; try assumption; now apply dict_get_ok.
Qed.

(** What one request can do to the globals. *)
Lemma handle_globals (G : App.t) (req : Request) :
  fst (handle round py_float py_int G req) = G \/
  exists form f page,
    req = PostFitness form /\
    snd (handle round py_float py_int G req) = Ok page /\
    Page.fitness page = Some f /\
    assessed (App.df_mega G) f /\
    fst (handle round py_float py_int G req) = set_last_fitness G f.
Proof.
  destruct req as [ | form | form args]; simpl; try now left.
  destruct (fitness_request round py_float py_int G form)
    as [[G' page] | e] eqn:E; [ | now left].
  right. apply fitness_request_ok in E
    as (w & h & a & gender & weight & height & age & f & _ & _ & _ & _ & _ & _
        & _ & Hf & -> & Hpage).
  exists form, f, page.
  split; [reflexivity | ]. split; [reflexivity | ]. split; [exact Hpage | ].
  split; [exact (fitness_route_assessed _ _ _ _ _ _ Hf) | reflexivity].
Qed.

Lemma run_invariant (G0 : App.t) (reqs : list Request) :
  (forall f, App.last_fitness G0 = Some f -> assessed (App.df_mega G0) f) ->
  App.df_mega (run round py_float py_int G0 reqs) = App.df_mega G0 /\
  App.models (run round py_float py_int G0 reqs) = App.models G0 /\
  App.body_parts (run round py_float py_int G0 reqs) = App.body_parts G0 /\
  (forall f,
     App.last_fitness (run round py_float py_int G0 reqs) = Some f ->
     assessed (App.df_mega G0) f).
Proof.
  revert G0. induction reqs as [ | req rest IH]; intros G0 Hinv.
  - simpl. split; [reflexivity | split; [reflexivity | split; [reflexivity | exact Hinv]]].
  - unfold run. simpl. fold (run round py_float py_int).
    destruct (handle_globals G0 req)
      as [-> | (form & f & page & _ & _ & _ & Hf & ->)].
    + now apply IH.
    + destruct (IH (set_last_fitness G0 f)) as (Hdf & Hm & Hb & Hlast).
      { simpl. intros f' E. inversion E; subst. exact Hf. }
      simpl in *. split; [ | split; [ | split]]; assumption.
Qed.

End ViewProperties.

(** X11. Whatever requests are served after start-up, the catalog, the
    models and the body-part list stay what the load blocks made them, and
    [last_fitness] is empty or holds an assessment of that catalog: a label
    of the bmi chain with its plan in 1..7, one of the five body-fat
    classes, and the recommendation of that plan, at most 10 rows. *)
Theorem stored_assessment_invariant `{SortValues}
  (round : float -> Z -> float)
  (py_float : string -> result float) (py_int : string -> result Z)
  (csv : option DataFrame) (encoders : option (dict LabelEncoder))
  (tm em lm : option Classifier) (reqs : list Request) :
  let G0 := startup csv encoders tm em lm in
  let G := run round py_float py_int G0 reqs in
  App.df_mega G = load_dataset csv /\
  App.models G = fst (load_models encoders tm em lm) /\
  App.body_parts G = snd (load_models encoders tm em lm) /\
  (forall f, App.last_fitness G = Some f -> assessed (load_dataset csv) f).
Proof.
  intros G0 G.
  apply (run_invariant round py_float py_int G0 reqs).
  simpl. discriminate.
Qed.

(** X12. A request changes the globals only when it is a POST /fitness
    that succeeds, and then only [last_fitness], which becomes the
    assessment shown on the page; a request that raises, GET / and
    POST /ml_predict leave every global as it was. *)
Theorem handle_changes_only_last_fitness `{SortValues}
  (round : float -> Z -> float)
  (py_float : string -> result float) (py_int : string -> result Z)
  (G : App.t) (req : Request) :
  (forall e,
     snd (handle round py_float py_int G req) = Raise e ->
     fst (handle round py_float py_int G req) = G) /\
  (is_fitness_post req = false ->
     fst (handle round py_float py_int G req) = G) /\
  (forall page,
     is_fitness_post req = true ->
     snd (handle round py_float py_int G req) = Ok page ->
     exists f,
       Page.fitness page = Some f /\
       fst (handle round py_float py_int G req) = set_last_fitness G f).
Proof.
  split; [ | split].
  - intros e He.
    destruct (handle_globals round py_float py_int G req)
      as [E | (form & f & page & _ & Hok & _)]; [exact E | ].
    rewrite Hok in He. discriminate.
  - destruct req; simpl; try discriminate; reflexivity.
  - intros page Hpost Hok.
    destruct (handle_globals round py_float py_int G req)
      as [E | (form & f & page' & _ & Hok' & Hpage & _ & HG)].
    + destruct req as [ | form | ]; try discriminate. simpl in *.
      destruct (fitness_request round py_float py_int G form)
        as [[G' page'] | e] eqn:Ereq; simpl in *; [ | discriminate].
      inversion Hok; subst page'.
      apply fitness_request_ok in Ereq
        as (w & h & a & gender & weight & height & age & f & _ & _ & _ & _ & _
            & _ & _ & _ & -> & Hpage).
      now exists f.
    + rewrite Hok in Hok'. inversion Hok'; subst page'. now exists f.
Qed.

(** A POST /fitness with the sample form stores what it shows. *)
Lemma handle_changes_only_last_fitness_witness :
  exists f,
    App.last_fitness
      (fst (@handle stable_sort (fun x _ => x) demo_float demo_int
              demo_app (PostFitness demo_form))) = Some f /\
    Fitness.plan f = 4%Z.
Proof.
  destruct (@handle_changes_only_last_fitness stable_sort (fun x _ => x)
              demo_float demo_int demo_app (PostFitness demo_form))
    as (_ & _ & Hpost).
  destruct (Hpost _ eq_refl eq_refl) as (f & Hpage & HG).
  exists f. rewrite HG. split; [reflexivity | ].
  simpl in Hpage. inversion Hpage. reflexivity.
Defined.

Section MoreViewProperties.

Context `{SortValues}.
Variable round : float -> Z -> float.
Variable py_float : string -> result float.
Variable py_int : string -> result Z.

(** Requests other than POST /fitness leave the globals alone. *)
Lemma run_without_fitness_post (G : App.t) (reqs : list Request) :
  forallb (fun req => negb (is_fitness_post req)) reqs = true ->
  run round py_float py_int G reqs = G.
Proof.
  induction reqs as [ | req rest IH]; simpl; [reflexivity | ].
  intros Hall. apply andb_true_iff in Hall as [Hreq Hrest].
  unfold run in *. simpl.
  destruct req; simpl in *; try discriminate; now apply IH.
Qed.

(** GET / and a successful POST /ml_predict show the stored assessment. *)
Lemma page_shows_last_fitness (G : App.t) (req : Request) (page : Page.t) :
  is_fitness_post req = false ->
  snd (handle round py_float py_int G req) = Ok page ->
  Page.fitness page = App.last_fitness G.
Proof.
  destruct req as [ | form | form args]; simpl; try discriminate.
  - intros _ E. inversion E. reflexivity.
  - intros _ E. unfold ml_predict_request in E.
    apply bind_ok in E as (bodypart & _ & E).
    apply bind_ok in E as (ml_data & _ & E).
    destruct (App.last_fitness G); inversion E; reflexivity.
Qed.

End MoreViewProperties.

(** X13. The assessment of a successful POST /fitness survives the
    requests that follow: as long as no other POST /fitness is served, the
    globals do not move, and GET / and every successful POST /ml_predict
    show that same assessment. *)
Theorem fitness_survives_other_requests `{SortValues}
  (round : float -> Z -> float)
  (py_float : string -> result float) (py_int : string -> result Z)
  (G G1 : App.t) (form : dict string) (page page' : Page.t)
  (reqs : list Request) (req : Request) :
  handle round py_float py_int G (PostFitness form) = (G1, Ok page) ->
  forallb (fun r => negb (is_fitness_post r)) reqs = true ->
  is_fitness_post req = false ->
  snd (handle round py_float py_int
         (run round py_float py_int G1 reqs) req) = Ok page' ->
  run round py_float py_int G1 reqs = G1 /\
  Page.fitness page' = Page.fitness page /\
  exists f, Page.fitness page = Some f.
Proof.
  intros Hpost Hreqs Hreq Hpage'.
  rewrite (run_without_fitness_post round py_float py_int G1 reqs Hreqs)
    in Hpage' |- *.
  split; [reflexivity | ].
  rewrite (page_shows_last_fitness round py_float py_int G1 req page' Hreq Hpage').
  simpl in Hpost.
  destruct (fitness_request round py_float py_int G form)
    as [[G' p] | e] eqn:E; inversion Hpost; subst.
  apply fitness_request_ok in E
    as (w & h & a & gender & weight & height & age & f & _ & _ & _ & _ & _ & _
        & _ & _ & -> & Hf).
  rewrite Hf. split; [reflexivity | now exists f].
Qed.

(** After the sample POST /fitness, a GET / and a prediction for "Chest",
    GET / still shows plan 4. *)
Lemma fitness_survives_other_requests_witness :
  exists G1 page f,
    @handle stable_sort (fun x _ => x) demo_float demo_int demo_app
      (PostFitness demo_form) = (G1, Ok page) /\
    Page.fitness
      (home (@run stable_sort (fun x _ => x) demo_float demo_int G1
               [GetHome; PostMlPredict [("bodypart", "Chest")] []]))
      = Some f /\
    Fitness.plan f = 4%Z.
Proof.
  eexists _, _, _. split; [reflexivity | ].
  destruct (@fitness_survives_other_requests stable_sort (fun x _ => x)
              demo_float demo_int demo_app _ demo_form _ _
              [GetHome; PostMlPredict [("bodypart", "Chest")] []] GetHome
              eq_refl eq_refl eq_refl eq_refl) as (_ & Hsame & _).
  split; [exact Hsame | reflexivity].
Defined.

(** X14. A POST /fitness whose form lacks one of the fields weight,
    height, age, gender never succeeds and stores nothing; a missing weight
    is reported first, as [KeyError] on "weight". *)
Theorem fitness_request_missing_field `{SortValues}
  (round : float -> Z -> float)
  (py_float : string -> result float) (py_int : string -> result Z)
  (G : App.t) (form : dict string) (k : string) :
  In k ["weight"; "height"; "age"; "gender"] ->
  dict_find form k = None ->
  (exists e, fitness_request round py_float py_int G form = Raise e) /\
  fst (handle round py_float py_int G (PostFitness form)) = G /\
  (k = "weight" ->
   fitness_request round py_float py_int G form = Raise (KeyError "weight")).
Proof.
  intros Hk Hmissing.
  assert (Hraise : exists e,
             fitness_request round py_float py_int G form = Raise e).
  { destruct (fitness_request round py_float py_int G form)
      as [[G' page] | e] eqn:E; [ | now exists e].
    apply fitness_request_ok in E
      as (w & h & a & gender & weight & height & age & f & Hw & _ & Hh & _
          & Ha & _ & Hg & _).
    simpl in Hk. destruct Hk as [<- | [<- | [<- | [<- | []]]]]; congruence. }
  split; [exact Hraise | ]. split.
  - simpl. destruct Hraise as [e ->]. reflexivity.
  - intros ->. unfold fitness_request.
    now rewrite (dict_get_missing form "weight" Hmissing).
Qed.

(** A form without an age. *)
Lemma fitness_request_missing_field_witness :
  @fitness_request stable_sort (fun x _ => x) demo_float demo_int demo_app
    [("weight", "70"); ("height", "1.75"); ("gender", "male")]
  = Raise (KeyError "age").
Proof.
  destruct (@fitness_request_missing_field stable_sort (fun x _ => x)
              demo_float demo_int demo_app
              [("weight", "70"); ("height", "1.75"); ("gender", "male")] "age")
    as ([e He] & _ & _); [simpl; tauto | reflexivity | ].
  reflexivity.
Defined.

(* ================================================================= *)
(** ** Properties of the model load and of the prediction route *)

Lemma index_of_in (y : string) (classes : list string) :
  In y classes -> exists i, index_of y classes = Some i.
Proof.
  intros Hin. destruct (index_of y classes) as [i | ] eqn:E; [now exists i | ].
  apply index_of_none in E. contradiction.
Qed.

Lemma index_of_nth (y : string) (classes : list string) (i : nat) :
  NoDup classes -> nth_error classes i = Some y -> index_of y classes = Some i.
Proof.
  intros Hnodup. revert i.
  induction Hnodup as [ | c rest Hc _ IH]; intros [ | i]; simpl; try discriminate.
  - intros E. inversion E. now rewrite String.eqb_refl.
  - intros E. destruct (String.eqb_spec c y) as [-> | _].
    + exfalso. apply Hc. eapply nth_error_In. exact E.
    + now rewrite (IH i E).
Qed.

Lemma inverse_transform_in_vocabulary (enc : LabelEncoder) (code : Z) :
  in_vocabulary enc code ->
  exists label, inverse_transform enc code = Ok label /\ decodes enc code label.
Proof.
  unfold in_vocabulary. intros Hcode. unfold inverse_transform, decodes.
  destruct (Z.leb_spec 0 code); [ | lia].
  destruct (Z.ltb_spec code (Z.of_nat (List.length (classes_ enc)))); [ | lia].
  simpl.
  destruct (nth_error (classes_ enc) (Z.to_nat code)) as [label | ] eqn:E.
  - exists label. split; [reflexivity | ]. split; [exact Hcode | reflexivity].
  - apply nth_error_None in E. lia.
Qed.

(** X15. Every body part offered in [body_parts] can be used: the list is
    non-empty only when the encoders and the three models all loaded, it is
    the vocabulary of the BodyPart encoder, and each of its entries is
    encoded by [transform] without an error. *)
Theorem load_models_body_parts (encoders : option (dict LabelEncoder))
  (tm em lm : option Classifier) (bodypart : string) :
  In bodypart (snd (load_models encoders tm em lm)) ->
  exists e enc t q l code,
    encoders = Some e /\ tm = Some t /\ em = Some q /\ lm = Some l /\
    fst (load_models encoders tm em lm) =
      {| label_encoders := Some e; title_model := Some t;
         equipment_model := Some q; level_model := Some l |} /\
    dict_find e "BodyPart" = Some enc /\
    snd (load_models encoders tm em lm) = classes_ enc /\
    transform enc bodypart = Ok code.
Proof.
  unfold load_models.
  destruct encoders as [e | ]; [ | contradiction].
  destruct tm as [t | ]; [ | contradiction].
  destruct em as [q | ]; [ | contradiction].
  destruct lm as [l | ]; [ | contradiction].
  cbn [fst snd].
  destruct (dict_find e "BodyPart") as [enc | ] eqn:E; [ | contradiction].
  intros Hin. destruct (index_of_in _ _ Hin) as [i Hi].
  exists e, enc, t, q, l, (Z.of_nat i).
  do 7 (split; [first [reflexivity | exact E] | ]).
  unfold transform. now rewrite Hi.
Qed.

(** With the sample encoders and models, "Legs" is offered and encodes
    to 2. *)
Lemma load_models_body_parts_witness :
  snd (load_models (label_encoders demo_models) (title_model demo_models)
         (equipment_model demo_models) (level_model demo_models))
    = ["Back"; "Chest"; "Legs"] /\
  exists enc,
    dict_find demo_encoders "BodyPart" = Some enc /\
    transform enc "Legs" = Ok 2%Z.
Proof.
  split; [reflexivity | ].
  destruct (load_models_body_parts (label_encoders demo_models)
              (title_model demo_models) (equipment_model demo_models)
              (level_model demo_models) "Legs")
    as (e & enc & t & q & l & code & He & _ & _ & _ & _ & Henc & _ & Hcode);
    [simpl; tauto | ].
  inversion He; subst e. exists enc. split; [exact Henc | ].
  simpl in Henc. inversion Henc; subst enc. reflexivity.
Defined.

(** X16. The model load stops at its first failure: the encoders are kept
    as loaded, but a model whose own load or an earlier one failed stays
    [None], even if its file could be read, and [body_parts] stays empty
    unless all four loads succeeded. *)
Theorem load_models_stops_at_first_failure
  (encoders : option (dict LabelEncoder)) (tm em lm : option Classifier) :
  label_encoders (fst (load_models encoders tm em lm)) = encoders /\
  (encoders = None -> fst (load_models encoders tm em lm) = no_models) /\
  (tm = None ->
     title_model (fst (load_models encoders tm em lm)) = None /\
     equipment_model (fst (load_models encoders tm em lm)) = None /\
     level_model (fst (load_models encoders tm em lm)) = None) /\
  (em = None ->
     equipment_model (fst (load_models encoders tm em lm)) = None /\
     level_model (fst (load_models encoders tm em lm)) = None) /\
  (lm = None -> level_model (fst (load_models encoders tm em lm)) = None) /\
  (encoders = None \/ tm = None \/ em = None \/ lm = None ->
     snd (load_models encoders tm em lm) = []).
Proof.
  unfold load_models.
  destruct encoders as [e | ], tm as [t | ], em as [q | ], lm as [l | ];
    simpl; repeat split; try reflexivity; try discriminate;
    intros [E | [E | [E | E]]]; discriminate.
Qed.

(** The title model fails to load, the two others could be read: they stay
    unloaded and a prediction for a known body part ends in
    [AttributeError]. *)
Lemma load_models_stops_at_first_failure_witness :
  equipment_model
    (fst (load_models (Some demo_encoders) None
            (equipment_model demo_models) (level_model demo_models))) = None /\
  ml_predict_route
    (fst (load_models (Some demo_encoders) None
            (equipment_model demo_models) (level_model demo_models))) "Chest"
    = Raise AttributeError.
Proof.
  split; [ | reflexivity].
  destruct (load_models_stops_at_first_failure (Some demo_encoders) None
              (equipment_model demo_models) (level_model demo_models))
    as (_ & _ & Htitle & _).
  exact (proj1 (proj2 (Htitle eq_refl))).
Defined.

(** X17. What [ml_predict_route] raises when something is not loaded:
    [TypeError] for every body part when the encoders are missing,
    [KeyError] when they lack the BodyPart entry, and, for a body part of
    the vocabulary, [AttributeError] when one of the three models is
    missing. *)
Theorem ml_predict_route_unavailable (M : MLModels) (bodypart : string) :
  (label_encoders M = None -> ml_predict_route M bodypart = Raise TypeError) /\
  (forall e,
     label_encoders M = Some e -> dict_find e "BodyPart" = None ->
     ml_predict_route M bodypart = Raise (KeyError "BodyPart")) /\
  (forall e enc,
     label_encoders M = Some e -> dict_find e "BodyPart" = Some enc ->
     In bodypart (classes_ enc) ->
     title_model M = None \/ equipment_model M = None \/ level_model M = None ->
     ml_predict_route M bodypart = Raise AttributeError).
Proof.
  split; [ | split].
  - intros E. unfold ml_predict_route, subscript. now rewrite E.
  - intros e E Hb. unfold ml_predict_route, subscript, dict_get.
    now rewrite E, Hb.
  - intros e enc E Hb Hin Hnone.
    destruct (index_of_in _ _ Hin) as [i Hi].
    unfold ml_predict_route, subscript, dict_get, transform, call_predict.
    rewrite E, Hb. simpl. rewrite Hi. simpl.
    destruct (title_model M); simpl; [ | reflexivity].
    destruct (equipment_model M); simpl; [ | reflexivity].
    destruct (level_model M); simpl; [ | reflexivity].
    destruct Hnone as [N | [N | N]]; discriminate.
Qed.

(** Nothing loaded: [TypeError]. *)
Lemma ml_predict_route_unavailable_witness :
  ml_predict_route no_models "Chest" = Raise TypeError.
Proof.
  now apply (ml_predict_route_unavailable no_models "Chest").
Defined.

(** X18. Encoding and decoding are inverse to each other on the encoder
    model: a label that [transform] encodes is what [inverse_transform]
    gives back for its code, and, when the vocabulary has no duplicate, a
    code that [inverse_transform] decodes is what [transform] gives back for
    its label. *)
Theorem label_round_trip (enc : LabelEncoder) :
  (forall y code,
     transform enc y = Ok code -> inverse_transform enc code = Ok y) /\
  (NoDup (classes_ enc) ->
   forall code y,
     inverse_transform enc code = Ok y -> transform enc y = Ok code).
Proof.
  split.
  - intros y code Hcode.
    destruct (transform_ok _ _ _ Hcode) as [_ Hnth].
    assert (Hrange : in_vocabulary enc code).
    { unfold in_vocabulary, transform in *.
      destruct (index_of y (classes_ enc)) as [i | ]; [ | discriminate].
      inversion Hcode; subst. rewrite Nat2Z.id in Hnth.
      assert (i < List.length (classes_ enc))%nat
        by (apply nth_error_Some; congruence).
      lia. }
    destruct (inverse_transform_in_vocabulary enc code Hrange)
      as (label & Hinv & _ & Hlabel).
    rewrite Hinv. congruence.
  - intros Hnodup code y Hinv.
    apply inverse_transform_ok in Hinv as [Hrange Hnth].
    unfold transform. rewrite (index_of_nth _ _ _ Hnodup Hnth).
    unfold in_vocabulary in Hrange. f_equal. lia.
Qed.

(** "Squat" in the sample Title vocabulary: code 2 and back. *)
Lemma label_round_trip_witness :
  inverse_transform {| classes_ := ["Bench Press"; "Deadlift"; "Squat"] |} 2
    = Ok "Squat" /\
  transform {| classes_ := ["Bench Press"; "Deadlift"; "Squat"] |} "Squat"
    = Ok 2%Z.
Proof.
  destruct (label_round_trip
              {| classes_ := ["Bench Press"; "Deadlift"; "Squat"] |})
    as [Hforth Hback].
  split.
  - apply Hforth. reflexivity.
  - apply Hback; [ | reflexivity].
    repeat (constructor; [simpl; intuition discriminate | ]). constructor.
Defined.

(** X19. With the encoders and the three models loaded, a body part of the
    vocabulary and classifiers whose predictions are positions of the
    vocabularies of their encoders, [ml_predict_route] returns: each label
    is the entry of its encoder at the predicted code. *)
Theorem ml_predict_route_total (M : MLModels)
  (body_enc title_enc equipment_enc level_enc : LabelEncoder)
  (tm em lm : Classifier) (bodypart : string) :
  loaded M body_enc title_enc equipment_enc level_enc tm em lm ->
  In bodypart (classes_ body_enc) ->
  (forall code, in_vocabulary title_enc (predict tm code)) ->
  (forall code, in_vocabulary equipment_enc (predict em code)) ->
  (forall code, in_vocabulary level_enc (predict lm code)) ->
  exists code data,
    transform body_enc bodypart = Ok code /\
    ml_predict_route M bodypart = Ok data /\
    decodes title_enc (predict tm code) (title data) /\
    decodes equipment_enc (predict em code) (equipment data) /\
    decodes level_enc (predict lm code) (level data).
Proof.
  intros Hloaded Hin Ht He Hl.
  destruct (index_of_in _ _ Hin) as [i Hi].
  assert (Hcode : transform body_enc bodypart = Ok (Z.of_nat i))
    by (unfold transform; now rewrite Hi).
  destruct (inverse_transform_in_vocabulary _ _ (Ht (Z.of_nat i)))
    as (tl & Htl & Htd).
  destruct (inverse_transform_in_vocabulary _ _ (He (Z.of_nat i)))
    as (el & Hel & Hed).
  destruct (inverse_transform_in_vocabulary _ _ (Hl (Z.of_nat i)))
    as (ll & Hll & Hld).
  exists (Z.of_nat i), {| title := tl; equipment := el; level := ll |}.
  split; [exact Hcode | ]. split.
  - rewrite (ml_predict_route_loaded _ _ _ _ _ _ _ _ bodypart Hloaded).
    rewrite Hcode. simpl. rewrite Htl. simpl. rewrite Hel. simpl.
    rewrite Hll. reflexivity.
  - simpl. split; [exact Htd | split; [exact Hed | exact Hld]].
Qed.

Definition constant_models : MLModels :=
  {| label_encoders := Some demo_encoders;
     title_model := Some {| predict := fun _ => 2%Z |};
     equipment_model := Some {| predict := fun _ => 0%Z |};
     level_model := Some {| predict := fun _ => 1%Z |} |}.

(** Three constant classifiers on the sample encoders. *)
Lemma ml_predict_route_total_witness :
  exists data, ml_predict_route constant_models "Back" = Ok data.
Proof.
  destruct (ml_predict_route_total constant_models
              {| classes_ := ["Back"; "Chest"; "Legs"] |}
              {| classes_ := ["Bench Press"; "Deadlift"; "Squat"] |}
              {| classes_ := ["Barbell"; "Body Only"] |}
              {| classes_ := ["Beginner"; "Intermediate"] |}
              {| predict := fun _ => 2%Z |} {| predict := fun _ => 0%Z |}
              {| predict := fun _ => 1%Z |} "Back")
    as (code & data & _ & Hdata & _).
  - constructor; try reflexivity. exists demo_encoders. repeat split.
  - simpl. tauto.
  - intros code. unfold in_vocabulary. simpl. lia.
  - intros code. unfold in_vocabulary. simpl. lia.
  - intros code. unfold in_vocabulary. simpl. lia.
  - now exists data.
Defined.

(* ================================================================= *)
(** ** The recommender and the route in each state of the catalog *)

Lemma recommend_exercises_on_none `{SortValues} (plan : Z) :
  recommend_exercises_on CatalogNone plan = Ok (recommend_exercises None plan).
Proof. reflexivity. Qed.

Lemma recommend_exercises_on_loaded `{SortValues} (df : DataFrame) (plan : Z) :
  recommend_exercises_on (CatalogLoaded df) plan =
    Ok (recommend_exercises (Some df) plan).
Proof. reflexivity. Qed.

(** X20. When [read_csv] failed ([df_mega] is [None]) and when the cleaned
    catalog is empty, [recommend_exercises] returns the empty list for every
    plan and [fitness_route] returns the whole assessment: the bmi rounded
    to 2 places, its label, the body fat estimate rounded to 2 places, its
    label, the plan of the bmi label, and no exercises. *)
Theorem fitness_route_without_catalog `{SortValues}
  (round : float -> Z -> float) (df_mega : Catalog)
  (weight height : float) (age : Z) (gender : string) :
  df_mega = CatalogNone \/ df_mega = CatalogLoaded [] ->
  (height * height =? 0)%float = false ->
  (Z.abs age < PyFloat.int_bound)%Z ->
  (forall plan, recommend_exercises_on df_mega plan = Ok []) /\
  exists bfp plan,
    estimate_bfp (weight / (height * height))%float gender age = Ok bfp /\
    get_plan (bmi_case_of (weight / (height * height))%float) = Ok plan /\
    fitness_route_on round df_mega weight height age gender =
      Ok {| Fitness.bmi := round (weight / (height * height))%float 2%Z;
            Fitness.bmi_case := bmi_case_of (weight / (height * height))%float;
            Fitness.bfp := round bfp 2%Z;
            Fitness.bfp_case := bfp_case bfp gender;
            Fitness.plan := plan;
            Fitness.exercises := [] |}.
Proof.
  intros Hdf Hz Hage.
  assert (Hrec : forall plan, recommend_exercises_on df_mega plan = Ok []).
  { intros plan. destruct Hdf as [-> | ->]; [reflexivity | ].
    unfold recommend_exercises_on. simpl filter.
    rewrite sort_values_nil. reflexivity. }
  split; [exact Hrec | ].
  destruct (estimate_bfp_ok (weight / (height * height)) gender age Hage)
    as (bfp & Hbfp).
  destruct (proj1 (get_plan_defined _)
              (bmi_case_of_in (weight / (height * height)))) as [plan Hplan].
  exists bfp, plan. split; [exact Hbfp | ]. split; [exact Hplan | ].
  unfold fitness_route_on, calculate_bmi_case, PyFloat.truediv.
  rewrite Hz. simpl. rewrite Hbfp. simpl. rewrite Hplan. simpl.
  rewrite (Hrec plan). reflexivity.
Qed.

(** No catalog, weight 70, height 1.75, age 30, male: the label is
    "normal", the plan 4 and the list empty. *)
Lemma fitness_route_without_catalog_witness :
  exists fitness,
    @fitness_route_on stable_sort (fun x _ => x) CatalogNone 70 1.75 30 "male"
      = Ok fitness /\
    Fitness.bmi_case fitness = "normal" /\
    Fitness.plan fitness = 4%Z /\
    Fitness.exercises fitness = [].
Proof.
  destruct (@fitness_route_without_catalog stable_sort (fun x _ => x)
              CatalogNone 70 1.75 30%Z "male")%float
    as (_ & bfp & plan & _ & Hplan & Hroute);
    [now left | reflexivity | reflexivity | ].
  eexists. split; [exact Hroute | ].
  split; [reflexivity | ]. split; [ | reflexivity].
  simpl. vm_compute in Hplan. now injection Hplan as <-.
Defined.

(** X21. On a catalog the load block has cleaned, [recommend_exercises]
    returns without raising, at most 10 rows, and the ratings never
    increase from a row to a later one. *)
Theorem recommend_exercises_descending `{SortValues}
  (csv : option CsvFrame) (df : DataFrame) (plan : Z) :
  load_block csv = CatalogLoaded df ->
  exists out,
    recommend_exercises_on (load_block csv) plan = Ok out /\
    out = firstn 10 (sort_values_desc (filter (plan_filter plan) df)) /\
    (List.length out <= 10)%nat /\
    descending out.
Proof.
  intros Hload. rewrite Hload.
  exists (recommend_exercises (Some df) plan).
  split; [reflexivity | ]. split; [reflexivity | ]. split.
  - unfold recommend_exercises. apply firstn_le_length.
  - apply recommend_exercises_rated_descending.
    exact (load_block_rated csv df Hload).
Qed.

(** Three rated rows, plan 4: the two Intermediate rows, in descending
    order. *)
Lemma recommend_exercises_descending_witness :
  exists out,
    @recommend_exercises_on stable_sort
      (load_block (Some (WithRating [jumping_jacks; bench_press; deadlift]))) 4
      = Ok out /\
    descending out.
Proof.
  destruct (@recommend_exercises_descending stable_sort
              (Some (WithRating [jumping_jacks; bench_press; deadlift]))
              [jumping_jacks; bench_press; deadlift] 4)
    as (out & Hout & _ & _ & Hdesc); [reflexivity | ].
  exists out. split; [exact Hout | exact Hdesc].
Defined.
